(** * The usearch backend of vicinity: a shallow embedding and its contract

    Source: [src/vicinity/backends/usearch.py].

    The adapter [UsearchBackend] wraps one [usearch.index.Index] object and
    one [UsearchArgs] record.  The wrapped engine is a third-party library:
    it is taken here as an interface ([UsearchIndex.Engine]), a record of
    the operations the adapter calls.  The adapter's own code (reshape, zip,
    boolean-mask selection, path arithmetic, exception raising) is embedded
    as it is written.  Methods that run on [self] are written in
    state-passing style: they return the value (or the exception raised)
    together with the adapter after the call. *)

From stdpp Require Import base numbers list strings pretty gmap.

Set Default Proof Using "Type".

(** ** Python exceptions and fallible results *)

Module Py.

Inductive exn : Type :=
| IndexError
| ValueError
| NotImplementedError (msg : string)
| FileNotFoundError
| DeserializationError (field : string)
| EngineError (msg : string).

Inductive result (A : Type) : Type :=
| Ok (a : A)
| Raise (e : exn).

Arguments Ok {A} a.
Arguments Raise {A} e.

Definition bind {A B : Type} (m : result A) (k : A → result B) : result B :=
  match m with
  | Ok a => k a
  | Raise e => Raise e
  end.

(** A list comprehension whose body may raise: the first exception wins. *)
Fixpoint for_each {A B : Type} (f : A → result B) (l : list A) : result (list B) :=
  match l with
  | [] => Ok []
  | x :: l' => bind (f x) (λ y, bind (for_each f l') (λ ys, Ok (y :: ys)))
  end.

(** Values of keyword arguments typed [Any]. *)
Inductive object : Type :=
| PyNone
| PyInt (z : Z)
| PyStr (s : string).

End Py.

Notation "'let!' x ':=' m 'in' k" := (Py.bind m (λ x, k))
  (at level 10, x name, m at level 100, k at level 200, only parsing).

(** ** The part of numpy the adapter uses *)

Module Np.

(** A two-dimensional array: [shape = (nrows, ncols)], elements row-major. *)
Record NDArray (A : Type) : Type := mkNDArray {
  nrows : nat;
  ncols : nat;
  data : list A
}.

Arguments mkNDArray {A} nrows ncols data.
Arguments nrows {A} _.
Arguments ncols {A} _.
Arguments data {A} _.

(** [rows] consecutive slices of width [k] of a flat buffer. *)
Fixpoint chunks {A : Type} (k rows : nat) (l : list A) : list (list A) :=
  match rows with
  | O => []
  | S r => take k l :: chunks k r (drop k l)
  end.

(** [a.reshape(-1, k)] on an array holding the elements [l]: a second
    negative dimension, a zero one, or a size that [k] does not divide is
    a [ValueError]; otherwise the result has [size / k] rows of [k]. *)
Definition reshape_rows {A : Type} (l : list A) (k : Z) : Py.result (list (list A)) :=
  if (k <=? 0)%Z then Py.Raise Py.ValueError
  else
    let kn := Z.to_nat k in
    if (length l `mod` kn =? 0)%nat
    then Py.Ok (chunks kn (length l `div` kn) l)
    else Py.Raise Py.ValueError.

Fixpoint select {A : Type} (a : list A) (mask : list bool) : list A :=
  match a, mask with
  | x :: a', b :: mask' => if b then x :: select a' mask' else select a' mask'
  | _, _ => []
  end.

(** [a[mask]] for a one-dimensional boolean mask: the shapes must agree. *)
Definition getitem_mask {A : Type} (a : list A) (mask : list bool) : Py.result (list A) :=
  if (length a =? length mask)%nat then Py.Ok (select a mask)
  else Py.Raise Py.IndexError.

End Np.

(** ** The wrapped engine, [usearch.index.Index] *)

Module UsearchIndex.

(** The operations of the engine that the adapter calls.  [init] is the
    constructor [Index(ndim=, metric=, connectivity=, expansion_add=,
    expansion_search=)]; [add] is [add(None, vectors)] (keys assigned by
    the engine); [search] gives the elements of [results.keys] and of
    [results.distances] in row-major order, the distances already in the
    engine's 32-bit float type, on which [np.array(..., dtype=np.float32)]
    is the identity; [f32_lt] is the comparison [distance < threshold] and
    [f32_le] the order of distances; [save] and [load] go through a
    serialised image of type [blob], and [search] and [save] only read the
    index. *)
Record Engine : Type := mkEngine {
  scalar : Type;
  float32 : Type;
  float : Type;
  blob : Type;
  t : Type;
  f32_lt : float32 → float → bool;
  f32_le : float32 → float32 → bool;
  init : Z → string → Z → Z → Z → Py.result t;
  ndim : t → Z;
  len : t → nat;
  add : t → Np.NDArray scalar → Py.result t;
  search : t → Np.NDArray scalar → Z → Py.result (list Z * list float32);
  save : t → blob;
  load : t → blob → Py.result t
}.

End UsearchIndex.

(** ** The argument record *)

Module UsearchArgs.

Record t : Type := mk {
  dim : Z;
  metric : string;
  connectivity : Z;
  expansion_add : Z;
  expansion_search : Z
}.

(** The defaults of the dataclass. *)
Definition default : t := mk 0 "cos" 16 128 64.

End UsearchArgs.

(** ** Serialisation of argument records ([BaseArgs]) *)

Module BaseArgs.

Inductive json : Type :=
| JInt (z : Z)
| JStr (s : string).

Fixpoint field (name : string) (obj : list (string * json)) : option json :=
  match obj with
  | [] => None
  | (k, v) :: obj' => if String.eqb k name then Some v else field name obj'
  end.

Definition int_field (name : string) (obj : list (string * json)) : Py.result Z :=
  match field name obj with
  | Some (JInt z) => Py.Ok z
  | _ => Py.Raise (Py.DeserializationError name)
  end.

Definition str_field (name : string) (obj : list (string * json)) : Py.result string :=
  match field name obj with
  | Some (JStr s) => Py.Ok s
  | _ => Py.Raise (Py.DeserializationError name)
  end.

(** Modelled from the spec: [BaseArgs.dump] of [vicinity/backends/base.py],
    which is not among the sources.  The structured file is a field-for-field
    mirror of the record. *)
Definition dump (a : UsearchArgs.t) : list (string * json) :=
  [ ("dim", JInt (UsearchArgs.dim a));
    ("metric", JStr (UsearchArgs.metric a));
    ("connectivity", JInt (UsearchArgs.connectivity a));
    ("expansion_add", JInt (UsearchArgs.expansion_add a));
    ("expansion_search", JInt (UsearchArgs.expansion_search a)) ].

(** Modelled from the spec: [BaseArgs.load] of [vicinity/backends/base.py],
    which is not among the sources.  A missing or malformed field is a
    deserialization error. *)
Definition load (obj : list (string * json)) : Py.result UsearchArgs.t :=
  let! dim := int_field "dim" obj in
  let! metric := str_field "metric" obj in
  let! connectivity := int_field "connectivity" obj in
  let! expansion_add := int_field "expansion_add" obj in
  let! expansion_search := int_field "expansion_search" obj in
  Py.Ok (UsearchArgs.mk dim metric connectivity expansion_add expansion_search).

End BaseArgs.

(** ** The adapter *)

Module UsearchBackend.

Section Adapter.

Context (E : UsearchIndex.Engine).

Record t : Type := mk {
  index : UsearchIndex.t E;
  arguments : UsearchArgs.t
}.

(** A directory tree: paths are sequences of components; an index file
    holds an engine image, [arguments.json] a structured object. *)
Inductive file : Type :=
| IndexFile (b : UsearchIndex.blob E)
| ArgumentsFile (obj : list (string * BaseArgs.json)).

Definition Path : Type := list string.

(** [Path(base) / name] *)
Definition joinpath (base : Path) (name : string) : Path := base ++ [name].

(** One entry per query vector: the row of keys and the row of distances. *)
Definition QueryResult : Type := list (list Z * list (UsearchIndex.float32 E)).

Definition from_vectors (vectors : Np.NDArray (UsearchIndex.scalar E))
    (metric : string) (connectivity expansion_add expansion_search : Z)
    (kwargs : list (string * Py.object)) : Py.result t :=
  let dim := Z.of_nat (Np.ncols vectors) in
  let! index := UsearchIndex.init E dim metric connectivity expansion_add expansion_search in
  let! index := UsearchIndex.add E index vectors in
  let arguments := UsearchArgs.mk dim metric connectivity expansion_add expansion_search in
  Py.Ok (mk index arguments).

Definition dim (self : t) : Z := UsearchIndex.ndim E (index self).

Definition len (self : t) : nat := UsearchIndex.len E (index self).

(** [UsearchArgs.load(file)] *)
Definition read_arguments (fs : gmap (list string) file) (p : Path) : Py.result UsearchArgs.t :=
  match fs !! p with
  | None => Py.Raise Py.FileNotFoundError
  | Some (ArgumentsFile obj) => BaseArgs.load obj
  | Some (IndexFile _) => Py.Raise (Py.DeserializationError "")
  end.

(** [index.load(str(path))] *)
Definition read_index (fs : gmap (list string) file) (host : UsearchIndex.t E) (p : Path)
    : Py.result (UsearchIndex.t E) :=
  match fs !! p with
  | None => Py.Raise Py.FileNotFoundError
  | Some (IndexFile b) => UsearchIndex.load E host b
  | Some (ArgumentsFile _) => Py.Raise (Py.EngineError "not an index file")
  end.

Definition load (fs : gmap (list string) file) (base_path : Path) : Py.result t :=
  let path := joinpath base_path "index.usearch" in
  let! arguments := read_arguments fs (joinpath base_path "arguments.json") in
  let! index := UsearchIndex.init E (UsearchArgs.dim arguments) (UsearchArgs.metric arguments)
                  (UsearchArgs.connectivity arguments) (UsearchArgs.expansion_add arguments)
                  (UsearchArgs.expansion_search arguments) in
  let! index := read_index fs index path in
  Py.Ok (mk index arguments).

Definition save (self : t) (fs : gmap (list string) file) (base_path : Path)
    : Py.result unit * t * gmap (list string) file :=
  let path := joinpath base_path "index.usearch" in
  let fs := <[path := IndexFile (UsearchIndex.save E (index self))]> fs in
  let fs := <[joinpath base_path "arguments.json" := ArgumentsFile (BaseArgs.dump (arguments self))]> fs in
  (Py.Ok (), self, fs).

Definition query (self : t) (vectors : Np.NDArray (UsearchIndex.scalar E)) (k : Z)
    : Py.result QueryResult * t :=
  (let! results := UsearchIndex.search E (index self) vectors k in
   let! keys := Np.reshape_rows results.1 k in
   let! distances := Np.reshape_rows results.2 k in
   Py.Ok (zip keys distances),
   self).

Definition insert (self : t) (vectors : Np.NDArray (UsearchIndex.scalar E))
    : Py.result unit * t :=
  match UsearchIndex.add E (index self) vectors with
  | Py.Ok index' => (Py.Ok (), mk index' (arguments self))
  | Py.Raise e => (Py.Raise e, self)
  end.

Definition delete (self : t) (indices : list Z) : Py.result unit * t :=
  (Py.Raise (Py.NotImplementedError "Dynamic deletion is not supported by usearch."), self).

Definition threshold (self : t) (vectors : Np.NDArray (UsearchIndex.scalar E))
    (threshold : UsearchIndex.float E) : Py.result (list (list Z)) * t :=
  let '(rows, self) := query self vectors 100 in
  (let! rows := rows in
   Py.for_each
     (λ '(keys_row, distances_row),
        Np.getitem_mask keys_row (map (λ d, UsearchIndex.f32_lt E d threshold) distances_row))
     rows,
   self).

End Adapter.

Arguments mk {E} index arguments.
Arguments index {E} _.
Arguments arguments {E} _.
Arguments IndexFile {E} b.
Arguments ArgumentsFile {E} obj.

End UsearchBackend.

(** ** What the adapter expects of the engine *)

Module Contract.

Section Contract.

Context (E : UsearchIndex.Engine).

(** The constructor call made by [load]: every parameter is a field of the
    argument record. *)
Definition init_of (a : UsearchArgs.t) : Py.result (UsearchIndex.t E) :=
  UsearchIndex.init E (UsearchArgs.dim a) (UsearchArgs.metric a)
    (UsearchArgs.connectivity a) (UsearchArgs.expansion_add a)
    (UsearchArgs.expansion_search a).

(** The engine states that descend from a constructor call made with the
    parameters [a]. *)
Inductive configured (a : UsearchArgs.t) : UsearchIndex.t E → Prop :=
| configured_init e :
    init_of a = Py.Ok e → configured a e
| configured_add e vectors e' :
    configured a e → UsearchIndex.add E e vectors = Py.Ok e' → configured a e'
| configured_load host b e :
    configured a host → UsearchIndex.load E host b = Py.Ok e → configured a e.

(** The documented behaviour of the engine that the adapter's length,
    dimension and persistence rely on. *)
Record Laws : Prop := mkLaws {
  init_len : ∀ d m c ea es e,
    UsearchIndex.init E d m c ea es = Py.Ok e → UsearchIndex.len E e = 0;
  init_ndim : ∀ d m c ea es e,
    UsearchIndex.init E d m c ea es = Py.Ok e → UsearchIndex.ndim E e = d;
  add_len : ∀ e vectors e',
    UsearchIndex.add E e vectors = Py.Ok e' →
    UsearchIndex.len E e' = UsearchIndex.len E e + Np.nrows vectors;
  add_ndim : ∀ e vectors e',
    UsearchIndex.add E e vectors = Py.Ok e' →
    UsearchIndex.ndim E e' = UsearchIndex.ndim E e;
  load_save : ∀ a e host,
    configured a e → init_of a = Py.Ok host →
    UsearchIndex.load E host (UsearchIndex.save E e) = Py.Ok e
}.

(** The adapters a program can hold: made by [from_vectors] or [load],
    then changed by [insert] (no other method changes [self]). *)
Inductive built : UsearchBackend.t E → Prop :=
| built_from_vectors vectors m c ea es kwargs b :
    UsearchBackend.from_vectors E vectors m c ea es kwargs = Py.Ok b → built b
| built_load fs base_path b :
    UsearchBackend.load E fs base_path = Py.Ok b → built b
| built_insert b vectors r b' :
    built b → UsearchBackend.insert E b vectors = (r, b') → built b'.

(** Adjacent slots of one row of width [k] of a flat distance buffer are in
    non-decreasing order. *)
Definition rows_ascending (k : nat) (distances : list (UsearchIndex.float32 E)) : Prop :=
  ∀ p d1 d2,
    p `div` k = S p `div` k →
    distances !! p = Some d1 → distances !! S p = Some d2 →
    UsearchIndex.f32_le E d1 d2 = true.

(** Adjacent entries of one result row are in non-decreasing order. *)
Definition ascending (row : list (UsearchIndex.float32 E)) : Prop :=
  ∀ i d1 d2,
    row !! i = Some d1 → row !! S i = Some d2 → UsearchIndex.f32_le E d1 d2 = true.

(** The keys of one result row whose distance is strictly below [t]. *)
Definition below (t : UsearchIndex.float E)
    (row : list Z * list (UsearchIndex.float32 E)) : list Z :=
  (filter (λ p, UsearchIndex.f32_lt E p.2 t = true) (zip row.1 row.2)).*1.

End Contract.

Arguments init_len {E} _.
Arguments init_ndim {E} _.
Arguments add_len {E} _.
Arguments add_ndim {E} _.
Arguments load_save {E} _.

End Contract.

(** ** A reference engine: exact scan under squared Euclidean distance *)

Module ScanIndex.

Record state : Type := mkState {
  ndim : Z;
  metric : string;
  connectivity : Z;
  expansion_add : Z;
  expansion_search : Z;
  vectors : list (list Z)
}.

(** What an index file keeps: the search-time expansion settings stay with
    the index object that loads it. *)
Record image : Type := mkImage {
  image_ndim : Z;
  image_metric : string;
  image_connectivity : Z;
  image_vectors : list (list Z)
}.

Definition metrics : list string := ["cos"; "ip"; "l2sq"; "hamming"; "tanimoto"].

Definition init (d : Z) (m : string) (c ea es : Z) : Py.result state :=
  if existsb (String.eqb m) metrics && (0 <=? d)%Z
  then Py.Ok (mkState d m c ea es [])
  else Py.Raise (Py.EngineError "invalid index parameters").

Definition add (e : state) (batch : Np.NDArray Z) : Py.result state :=
  if (Z.of_nat (Np.ncols batch) =? ndim e)%Z
  then Py.Ok (mkState (ndim e) (metric e) (connectivity e) (expansion_add e)
                (expansion_search e)
                (vectors e ++ Np.chunks (Np.ncols batch) (Np.nrows batch) (Np.data batch)))
  else Py.Raise (Py.EngineError "dimensions do not match").

Fixpoint l2sq (u v : list Z) : Z :=
  match u, v with
  | x :: u', y :: v' => ((x - y) * (x - y) + l2sq u' v')%Z
  | _, _ => 0%Z
  end.

Fixpoint place (p : Z * Z) (l : list (Z * Z)) : list (Z * Z) :=
  match l with
  | [] => [p]
  | q :: l' => if (p.2 <? q.2)%Z then p :: q :: l' else q :: place p l'
  end.

Definition nearest (e : state) (q : list Z) (k : nat) : list (Z * Z) :=
  take k (foldr place [] (imap (λ i v, (Z.of_nat i, l2sq q v)) (vectors e))).

(** A batch answer has [k] slots per query, the unused ones zero-filled;
    the answer to a single query is cut to the matches found. *)
Definition search (e : state) (batch : Np.NDArray Z) (k : Z)
    : Py.result (list Z * list Z) :=
  if (k <=? 0)%Z then Py.Raise (Py.EngineError "k must be positive")
  else
    let kn := Z.to_nat k in
    let queries := Np.chunks (Np.ncols batch) (Np.nrows batch) (Np.data batch) in
    let found := map (λ q, nearest e q kn) queries in
    let rows :=
      if (Np.nrows batch =? 1)%nat then found
      else map (λ row, row ++ replicate (kn - length row) (0%Z, 0%Z)) found in
    Py.Ok (concat (map (map fst) rows), concat (map (map snd) rows)).

Definition save (e : state) : image :=
  mkImage (ndim e) (metric e) (connectivity e) (vectors e).

Definition load (host : state) (b : image) : Py.result state :=
  Py.Ok (mkState (image_ndim b) (image_metric b) (image_connectivity b)
           (expansion_add host) (expansion_search host) (image_vectors b)).

Definition engine : UsearchIndex.Engine :=
  UsearchIndex.mkEngine Z Z Z image state Z.ltb Z.leb
    init ndim (λ e, length (vectors e)) add search save load.

End ScanIndex.

(** ** The claims that the code does not keep, as the specification words them *)

Module Stated.

(** Each result row has as many (index, distance) pairs as the adapter
    holds vectors. *)
Definition short_result (E : UsearchIndex.Engine) (self : UsearchBackend.t E)
    (rows : UsearchBackend.QueryResult E) : Prop :=
  Forall (λ row, length (zip row.1 row.2) = UsearchBackend.len E self) rows.

Definition recognized : list string :=
  ["metric"; "connectivity"; "expansion_add"; "expansion_search"].

(** A keyword outside the recognised ones makes [from_vectors] fail. *)
Definition rejects_unknown (E : UsearchIndex.Engine)
    (vectors : Np.NDArray (UsearchIndex.scalar E)) (m : string) (c ea es : Z)
    (kwargs : list (string * Py.object)) : Prop :=
  (∃ kw, kw ∈ kwargs.*1 ∧ kw ∉ recognized) →
  ∃ e, UsearchBackend.from_vectors E vectors m c ea es kwargs = Py.Raise e.

End Stated.

(** ** Sample inputs *)

Module Samples.

Definition one_vector : Np.NDArray Z := Np.mkNDArray 1 2 [1; 2]%Z.

Definition three_vectors : Np.NDArray Z := Np.mkNDArray 3 2 [0; 0; 3; 4; 1; 1]%Z.

Definition two_probes : Np.NDArray Z := Np.mkNDArray 2 2 [0; 0; 3; 3]%Z.

Definition cos_args : UsearchArgs.t := UsearchArgs.mk 2 "cos" 16 128 64.

(** [from_vectors(one_vector, "cos", 16, 128, 64)] on the reference engine *)
Definition adapter_one : UsearchBackend.t ScanIndex.engine :=
  @UsearchBackend.mk ScanIndex.engine
    (ScanIndex.mkState 2 "cos" 16 128 64 [[1; 2]%Z]) cos_args.

(** [from_vectors(three_vectors, "cos", 16, 128, 64)] on the reference engine *)
Definition adapter_three : UsearchBackend.t ScanIndex.engine :=
  @UsearchBackend.mk ScanIndex.engine
    (ScanIndex.mkState 2 "cos" 16 128 64 [[0; 0]; [3; 4]; [1; 1]]%Z) cos_args.

Definition tmp : UsearchBackend.Path := ["tmp"; "index"].

End Samples.

(** ** Sequences of inserts *)

Module Growth.

Section Growth.

Context (E : UsearchIndex.Engine).

(** [grown b0 n b]: [b] is what the adapter [b0] has become after a
    sequence of [insert] calls that returned, [n] rows in all. *)
Inductive grown (b0 : UsearchBackend.t E) : nat → UsearchBackend.t E → Prop :=
| grown_start : grown b0 0 b0
| grown_insert n b vectors b' :
    grown b0 n b →
    UsearchBackend.insert E b vectors = (Py.Ok (), b') →
    grown b0 (n + Np.nrows vectors) b'.

End Growth.

End Growth.

(** ** The test fixtures, [src/tests/conftest.py] *)

Module Conftest.

(** The members of the enumeration [vicinity.datatypes.Backend] that the
    fixtures name. *)
Inductive Backend : Type :=
| BASIC
| HNSW
| FAISS
| ANNOY
| PYNNDESCENT
| USEARCH
| VOYAGER.

#[global] Instance Backend_eq_dec : EqDecision Backend.
Proof. solve_decision. Defined.

(** [backend.name]: the name of an enumeration member is its identifier. *)
Definition name (backend : Backend) : string :=
  match backend with
  | BASIC => "BASIC"
  | HNSW => "HNSW"
  | FAISS => "FAISS"
  | ANNOY => "ANNOY"
  | PYNNDESCENT => "PYNNDESCENT"
  | USEARCH => "USEARCH"
  | VOYAGER => "VOYAGER"
  end.

Definition _faiss_index_types : list string :=
  ["flat"; "ivf"; "hnsw"; "lsh"; "scalar"; "pq"; "ivf_scalar"; "ivfpq"; "ivfpqr"].

(** [[f"item{i}" for i in range(1, 10001)]] *)
Definition items : list string :=
  (λ i : nat, "item" +:+ pretty i) <$> seq 1 (Z.to_nat (10001 - 1)).

(** The shape of the [vectors] fixture, [random_gen.random((10000, 8))]. *)
Definition vectors_shape : nat * nat := (Z.to_nat 10000, 8).

Definition BACKEND_PARAMS : list (Backend * option string) :=
  ((λ index_type, (FAISS, Some index_type)) <$> _faiss_index_types)
  ++ [ (BASIC, None); (HNSW, None); (ANNOY, None); (PYNNDESCENT, None);
       (USEARCH, None); (VOYAGER, None) ].

(** [f"{backend.name}-{index_type}" if index_type else backend.name]: an
    empty index type is as false as [None]. *)
Definition backend_id (param : Backend * option string) : string :=
  match param.2 with
  | Some index_type =>
      if String.eqb index_type "" then name param.1
      else name param.1 +:+ "-" +:+ index_type
  | None => name param.1
  end.

Definition BACKEND_IDS : list string := backend_id <$> BACKEND_PARAMS.

End Conftest.

(** ** More sample inputs *)

Module MoreSamples.

Definition one_probe : Np.NDArray Z := Np.mkNDArray 1 2 [0; 0]%Z.

Definition other : UsearchBackend.Path := ["tmp"; "copy"].

End MoreSamples.

(** ** Order of the engine's answers *)

Module Ordering.

(** The engine returns full rows in order: when at most as many neighbours
    are asked for as the index holds, the distances it returns are
    non-decreasing along each row of [k] slots. *)
Definition ascending_when_filled (E : UsearchIndex.Engine) : Prop :=
  ∀ e batch k keys distances,
    UsearchIndex.search E e batch k = Py.Ok (keys, distances) →
    Z.to_nat k ≤ UsearchIndex.len E e →
    Contract.rows_ascending E (Z.to_nat k) distances.

(** Adjacent (key, distance) pairs are in non-decreasing order of
    distance. *)
Definition by_distance (l : list (Z * Z)) : Prop :=
  ∀ i p q, l !! i = Some p → l !! S i = Some q → (p.2 <=? q.2)%Z = true.

End Ordering.

(** * Properties *)

(** ** Arrays *)

Module NpFacts.

Lemma chunks_length {A : Type} (k rows : nat) (l : list A) :
  length (Np.chunks k rows l) = rows.
Proof. revert l; induction rows as [|r IH]; intros l; simpl; [done|by rewrite IH]. Qed.

Lemma chunks_lookup {A : Type} (k rows : nat) (l : list A) (i : nat) (row : list A) :
  Np.chunks k rows l !! i = Some row → row = take k (drop (i * k) l).
Proof.
  revert l i; induction rows as [|r IH]; intros l i; simpl; [done|].
  destruct i as [|i]; simpl.
  - by intros [= <-].
  - intros H. apply IH in H. by rewrite drop_drop in H.
Qed.

Lemma chunks_width {A : Type} (k rows : nat) (l : list A) :
  rows * k ≤ length l → Forall (λ row, length row = k) (Np.chunks k rows l).
Proof.
  revert l; induction rows as [|r IH]; intros l Hl; simpl; constructor.
  - rewrite length_take. lia.
  - apply IH. rewrite length_drop. simpl in Hl. lia.
Qed.

(** A successful [reshape(-1, k)]: [k] is positive and every row has
    exactly [k] entries. *)
Lemma reshape_rows_Ok {A : Type} (l : list A) (k : Z) (rows : list (list A)) :
  Np.reshape_rows l k = Py.Ok rows →
  (0 < k)%Z ∧ rows = Np.chunks (Z.to_nat k) (length l `div` Z.to_nat k) l ∧
  Forall (λ row, length row = Z.to_nat k) rows.
Proof.
  unfold Np.reshape_rows. destruct (Z.leb_spec k 0) as [|Hk]; [done|].
  destruct (Nat.eqb_spec (length l `mod` Z.to_nat k) 0) as [Hm|]; [|done].
  intros [= <-]. split_and!; [done..|].
  apply chunks_width. rewrite Nat.mul_comm. apply Nat.Div0.mul_div_le.
Qed.

Lemma reshape_rows_returns {A : Type} (l : list A) (k : Z) :
  (0 < k)%Z → length l `mod` Z.to_nat k = 0 →
  Np.reshape_rows l k = Py.Ok (Np.chunks (Z.to_nat k) (length l `div` Z.to_nat k) l).
Proof.
  intros Hk Hm. unfold Np.reshape_rows.
  destruct (Z.leb_spec k 0); [lia|]. by rewrite Hm.
Qed.

(** Selecting by the mask [f d] keeps the entries paired with a [d] that
    satisfies [f], in order. *)
Lemma select_mask_filter {A B : Type} (f : B → bool) (a : list A) (d : list B) :
  Np.select a (map f d) = (filter (λ p, f p.2 = true) (zip a d)).*1.
Proof.
  revert d; induction a as [|x a IH]; intros [|y d]; simpl; try done.
  destruct (f y) eqn:Hy.
  - rewrite filter_cons_True by done. simpl. by rewrite IH.
  - rewrite filter_cons_False by (simpl; congruence). apply IH.
Qed.

Lemma select_sublist {A : Type} (a : list A) (mask : list bool) :
  Np.select a mask `sublist_of` a.
Proof.
  revert mask; induction a as [|x a IH]; intros [|b mask]; simpl;
    try apply sublist_nil_l.
  destruct b; [by apply sublist_skip|by apply sublist_cons].
Qed.

(** Entry [j] of row [i] is entry [i * k + j] of the flat buffer. *)
Lemma chunks_row_lookup {A : Type} (k rows : nat) (l : list A) (i j : nat)
    (row : list A) (x : A) :
  Np.chunks k rows l !! i = Some row → row !! j = Some x →
  j < k ∧ l !! (i * k + j) = Some x.
Proof.
  intros Hrow Hx. apply chunks_lookup in Hrow as ->.
  apply lookup_take_Some in Hx as [Hx Hj]. by rewrite lookup_drop in Hx.
Qed.

Lemma same_row (k i j : nat) : S j < k → (i * k + j) `div` k = S (i * k + j) `div` k.
Proof.
  intros Hj. rewrite <- Nat.add_succ_r.
  rewrite !Nat.div_add_l by lia. by rewrite !Nat.div_small by lia.
Qed.

End NpFacts.

(** ** Argument files *)

Module BaseArgsFacts.

(** [dump] then [load] gives the record back, field for field. *)
Lemma load_dump (a : UsearchArgs.t) : BaseArgs.load (BaseArgs.dump a) = Py.Ok a.
Proof. by destruct a. Qed.

End BaseArgsFacts.

(** ** The adapter's invariant *)

Module Invariant.

Section Invariant.

Context (E : UsearchIndex.Engine).

Lemma bind_Ok {A B : Type} (m : Py.result A) (k : A → Py.result B) (b : B) :
  Py.bind m k = Py.Ok b → ∃ a, m = Py.Ok a ∧ k a = Py.Ok b.
Proof. destruct m as [a|e]; simpl; [eauto|done]. Qed.

(** The constructor call a configured engine descends from succeeds again:
    the engine's operations are functions of their arguments. *)
Lemma configured_host (a : UsearchArgs.t) (e : UsearchIndex.t E) :
  Contract.configured E a e → ∃ host, Contract.init_of E a = Py.Ok host.
Proof. induction 1; eauto. Qed.

Lemma from_vectors_Ok vectors m c ea es kwargs (b : UsearchBackend.t E) :
  UsearchBackend.from_vectors E vectors m c ea es kwargs = Py.Ok b →
  ∃ e0,
    UsearchIndex.init E (Z.of_nat (Np.ncols vectors)) m c ea es = Py.Ok e0 ∧
    UsearchIndex.add E e0 vectors = Py.Ok (UsearchBackend.index b) ∧
    UsearchBackend.arguments b = UsearchArgs.mk (Z.of_nat (Np.ncols vectors)) m c ea es.
Proof.
  unfold UsearchBackend.from_vectors. intros H.
  apply bind_Ok in H as (e0 & H0 & H). apply bind_Ok in H as (e1 & H1 & H).
  injection H as <-. eauto.
Qed.

Lemma load_Ok fs base_path (b : UsearchBackend.t E) :
  UsearchBackend.load E fs base_path = Py.Ok b →
  ∃ obj image host,
    fs !! UsearchBackend.joinpath base_path "arguments.json"
      = Some (UsearchBackend.ArgumentsFile obj) ∧
    BaseArgs.load obj = Py.Ok (UsearchBackend.arguments b) ∧
    fs !! UsearchBackend.joinpath base_path "index.usearch"
      = Some (UsearchBackend.IndexFile image) ∧
    Contract.init_of E (UsearchBackend.arguments b) = Py.Ok host ∧
    UsearchIndex.load E host image = Py.Ok (UsearchBackend.index b).
Proof.
  unfold UsearchBackend.load. intros H.
  apply bind_Ok in H as (a & Ha & H). apply bind_Ok in H as (host & Hh & H).
  apply bind_Ok in H as (e & He & H). injection H as <-. simpl.
  unfold UsearchBackend.read_arguments in Ha. unfold UsearchBackend.read_index in He.
  destruct (fs !! UsearchBackend.joinpath base_path "arguments.json") as [[|obj]|]; try done.
  destruct (fs !! UsearchBackend.joinpath base_path "index.usearch") as [[image|]|]; try done.
  by exists obj, image, host.
Qed.

(** Every adapter a program can hold keeps, in its argument record, the
    parameters its engine was constructed with. *)
Lemma built_configured (b : UsearchBackend.t E) :
  Contract.built E b →
  Contract.configured E (UsearchBackend.arguments b) (UsearchBackend.index b).
Proof.
  induction 1 as [vectors m c ea es kwargs b H|fs base_path b H|b vectors r b' Hb IH H].
  - apply from_vectors_Ok in H as (e0 & H0 & H1 & ->).
    eapply Contract.configured_add; [|exact H1]. by apply Contract.configured_init.
  - apply load_Ok in H as (obj & image & host & _ & _ & _ & Hh & Hl).
    eapply Contract.configured_load; [|exact Hl]. by apply Contract.configured_init.
  - unfold UsearchBackend.insert in H.
    destruct (UsearchIndex.add E (UsearchBackend.index b) vectors) as [e'|x] eqn:Ha;
      injection H as <- <-; [|done].
    simpl. eapply Contract.configured_add; eauto.
Qed.

Lemma joinpath_inj base_path (n1 n2 : string) :
  UsearchBackend.joinpath base_path n1 = UsearchBackend.joinpath base_path n2 → n1 = n2.
Proof. unfold UsearchBackend.joinpath. intros H. by apply app_inv_head in H as [= ->]. Qed.

End Invariant.

End Invariant.

(** ** The reference engine keeps the contract *)

Module ScanIndexFacts.

Lemma configured_expansion (a : UsearchArgs.t) (e : ScanIndex.state) :
  Contract.configured ScanIndex.engine a e →
  ScanIndex.expansion_add e = UsearchArgs.expansion_add a ∧
  ScanIndex.expansion_search e = UsearchArgs.expansion_search a.
Proof.
  induction 1 as [e H|e vectors e' _ IH H|host b e _ IH H].
  - unfold Contract.init_of in H. cbn in H. unfold ScanIndex.init in H.
    destruct (_ && _); [|done]. by injection H as <-.
  - cbn in H. unfold ScanIndex.add in H. destruct (_ =? _)%Z; [|done].
    by injection H as <-.
  - cbn in H. by injection H as <-.
Qed.

Lemma laws : Contract.Laws ScanIndex.engine.
Proof.
  split; cbn.
  - intros d m c ea es e H. unfold ScanIndex.init in H.
    destruct (_ && _); [|done]. by injection H as <-.
  - intros d m c ea es e H. unfold ScanIndex.init in H.
    destruct (_ && _); [|done]. by injection H as <-.
  - intros e vectors e' H. unfold ScanIndex.add in H.
    destruct (_ =? _)%Z; [|done]. injection H as <-. simpl.
    by rewrite length_app, NpFacts.chunks_length.
  - intros e vectors e' H. unfold ScanIndex.add in H.
    destruct (_ =? _)%Z; [|done]. by injection H as <-.
  - intros a e host He Hh. apply configured_expansion in He as [Ha Hs].
    unfold Contract.init_of in Hh. cbn in Hh. unfold ScanIndex.init in Hh.
    destruct (_ && _); [|done]. injection Hh as <-.
    unfold ScanIndex.load, ScanIndex.save. simpl. rewrite <- Ha, <- Hs. by destruct e.
Qed.

End ScanIndexFacts.

(** ** Query and threshold *)

Module QueryFacts.

Section QueryFacts.

Context (E : UsearchIndex.Engine).

Lemma query_self (self : UsearchBackend.t E) vectors k :
  UsearchBackend.query E self vectors k
  = ((UsearchBackend.query E self vectors k).1, self).
Proof. done. Qed.

(** What a returned query result is made of. *)
Lemma query_Ok (self : UsearchBackend.t E) vectors k rows :
  (UsearchBackend.query E self vectors k).1 = Py.Ok rows →
  ∃ keys distances,
    UsearchIndex.search E (UsearchBackend.index self) vectors k = Py.Ok (keys, distances) ∧
    (0 < k)%Z ∧
    rows = zip (Np.chunks (Z.to_nat k) (length keys `div` Z.to_nat k) keys)
               (Np.chunks (Z.to_nat k) (length distances `div` Z.to_nat k) distances) ∧
    Forall (λ row, length row.1 = Z.to_nat k ∧ length row.2 = Z.to_nat k) rows.
Proof.
  unfold UsearchBackend.query. simpl. intros H.
  apply Invariant.bind_Ok in H as ([keys distances] & Hs & H). simpl in H.
  apply Invariant.bind_Ok in H as (krows & Hk & H).
  apply Invariant.bind_Ok in H as (drows & Hd & H). injection H as <-.
  apply NpFacts.reshape_rows_Ok in Hk as (Hpos & -> & Hkw).
  apply NpFacts.reshape_rows_Ok in Hd as (_ & -> & Hdw).
  exists keys, distances. split_and!; [done..|].
  apply Forall_forall. intros [ks ds] Hin. simpl.
  split.
  - eapply (proj1 (Forall_forall _ _) Hkw), elem_of_zip_l, Hin.
  - eapply (proj1 (Forall_forall _ _) Hdw), elem_of_zip_r, Hin.
Qed.

(** The engine's buffers split evenly into rows of [k]: the query returns. *)
Lemma query_returns (self : UsearchBackend.t E) vectors k keys distances :
  UsearchIndex.search E (UsearchBackend.index self) vectors k = Py.Ok (keys, distances) →
  (0 < k)%Z →
  length keys `mod` Z.to_nat k = 0 → length distances `mod` Z.to_nat k = 0 →
  ∃ rows, (UsearchBackend.query E self vectors k).1 = Py.Ok rows.
Proof.
  intros Hs Hk Hkm Hdm. unfold UsearchBackend.query. simpl. rewrite Hs. simpl.
  rewrite !NpFacts.reshape_rows_returns by done. simpl. eauto.
Qed.

Lemma threshold_rows (t : UsearchIndex.float E)
    (rows : list (list Z * list (UsearchIndex.float32 E))) :
  Forall (λ row, length row.1 = length row.2) rows →
  Py.for_each
    (λ '(keys_row, distances_row),
       Np.getitem_mask keys_row (map (λ d, UsearchIndex.f32_lt E d t) distances_row))
    rows
  = Py.Ok (map (Contract.below E t) rows).
Proof.
  induction 1 as [|[ks ds] rows Hlen _ IH]; simpl; [done|].
  simpl in Hlen. unfold Np.getitem_mask at 1.
  rewrite length_map, Hlen, Nat.eqb_refl. simpl. rewrite IH. simpl.
  by rewrite NpFacts.select_mask_filter.
Qed.

Lemma below_sublist (t : UsearchIndex.float E)
    (row : list Z * list (UsearchIndex.float32 E)) :
  Contract.below E t row `sublist_of` row.1.
Proof.
  unfold Contract.below.
  rewrite <- (NpFacts.select_mask_filter (λ d, UsearchIndex.f32_lt E d t)).
  apply NpFacts.select_sublist.
Qed.

End QueryFacts.

End QueryFacts.

(** ** Order of distances *)

Module OrderingFacts.

(** The adapter cuts the rows where the engine put them and keeps their
    order. *)
Lemma query_keeps_row_order (E : UsearchIndex.Engine) (self : UsearchBackend.t E)
    (vectors : Np.NDArray (UsearchIndex.scalar E)) (k : Z)
    (keys : list Z) (distances : list (UsearchIndex.float32 E))
    (rows : UsearchBackend.QueryResult E) :
  UsearchIndex.search E (UsearchBackend.index self) vectors k = Py.Ok (keys, distances) →
  Contract.rows_ascending E (Z.to_nat k) distances →
  (UsearchBackend.query E self vectors k).1 = Py.Ok rows →
  Forall (λ row, Contract.ascending E row.2) rows.
Proof.
  intros Hs Hasc Hq.
  apply QueryFacts.query_Ok in Hq as (keys' & distances' & Hs' & Hk & -> & _).
  rewrite Hs in Hs'. injection Hs' as <- <-.
  apply Forall_forall. intros [ks ds] Hin. simpl.
  apply elem_of_zip_r, list_elem_of_lookup in Hin as [i Hi].
  intros j d1 d2 H1 H2.
  destruct (NpFacts.chunks_row_lookup _ _ _ _ _ _ _ Hi H1) as [_ Hp].
  destruct (NpFacts.chunks_row_lookup _ _ _ _ _ _ _ Hi H2) as [Hj Hq].
  rewrite Nat.add_succ_r in Hq.
  eapply Hasc; [|exact Hp|exact Hq]. by apply NpFacts.same_row.
Qed.

Lemma place_length p l : length (ScanIndex.place p l) = S (length l).
Proof.
  induction l as [|q l IH]; simpl; [done|].
  destruct (p.2 <? q.2)%Z; simpl; by rewrite ?IH.
Qed.

Lemma place_head p l :
  head (ScanIndex.place p l) = Some p ∨
  (head (ScanIndex.place p l) = head l ∧ ∃ q, head l = Some q ∧ (q.2 <=? p.2)%Z = true).
Proof.
  destruct l as [|q l]; simpl; [by left|].
  destruct (Z.ltb_spec p.2 q.2); simpl; [by left|].
  right. split; [done|]. exists q. split; [done|]. apply Z.leb_le. lia.
Qed.

Lemma place_by_distance p l :
  Ordering.by_distance l → Ordering.by_distance (ScanIndex.place p l).
Proof.
  induction l as [|q l IH]; intros Hl; simpl.
  - intros [|i] ?? H1 H2; simpl in *; done.
  - destruct (Z.ltb_spec p.2 q.2) as [Hlt|Hge].
    + intros [|i] a b H1 H2; simpl in *.
      * injection H1 as <-. injection H2 as <-. apply Z.leb_le. lia.
      * by apply (Hl i).
    + assert (Hl' : Ordering.by_distance l).
      { intros i a b H1 H2. by apply (Hl (S i)). }
      specialize (IH Hl').
      intros [|i] a b H1 H2; simpl in *.
      * injection H1 as <-.
        rewrite <- head_lookup in H2.
        destruct (place_head p l) as [Hh|[Hh (q' & Hq' & _)]].
        -- rewrite Hh in H2. injection H2 as <-. apply Z.leb_le. lia.
        -- rewrite Hh, Hq' in H2. injection H2 as <-.
           apply (Hl 0 q q'); [done|]. simpl. by rewrite <- head_lookup.
      * by apply (IH i).
Qed.

Lemma sorted_by_distance l : Ordering.by_distance (foldr ScanIndex.place [] l).
Proof.
  induction l as [|p l IH]; simpl; [by intros [|i]|]. by apply place_by_distance.
Qed.

Lemma sorted_length l : length (foldr ScanIndex.place [] l) = length l.
Proof. induction l as [|p l IH]; simpl; [done|]. by rewrite place_length, IH. Qed.

Lemma nearest_length e q k :
  k ≤ length (ScanIndex.vectors e) → length (ScanIndex.nearest e q k) = k.
Proof.
  intros Hk. unfold ScanIndex.nearest.
  rewrite length_take, sorted_length, length_imap. lia.
Qed.

Lemma nearest_by_distance e q k : Ordering.by_distance (ScanIndex.nearest e q k).
Proof.
  unfold ScanIndex.nearest. intros i a b H1 H2.
  apply lookup_take_Some in H1 as [H1 _]. apply lookup_take_Some in H2 as [H2 _].
  by eapply sorted_by_distance.
Qed.

Lemma concat_lookup_row {A} (k : nat) (ll : list (list A)) (i j : nat) :
  Forall (λ l, length l = k) ll → j < k →
  concat ll !! (i * k + j) = ll !! i ≫= (.!! j).
Proof.
  intros Hll Hj. revert i. induction Hll as [|l ll Hl _ IH]; intros i; simpl.
  - by rewrite lookup_nil.
  - destruct i as [|i]; simpl.
    + by rewrite lookup_app_l by lia.
    + rewrite lookup_app_r by lia. rewrite <- IH. f_equal. lia.
Qed.

Lemma same_row_succ (k p : nat) :
  0 < k → p `div` k = S p `div` k →
  p = (p `div` k) * k + p `mod` k ∧ S p = (p `div` k) * k + S (p `mod` k) ∧
  S (p `mod` k) < k.
Proof.
  intros Hk Hdiv.
  pose proof (Nat.div_mod_eq p k) as Hp. pose proof (Nat.div_mod_eq (S p) k) as Hs.
  pose proof (Nat.mod_upper_bound (S p) k ltac:(lia)) as Hb.
  rewrite <- Hdiv in Hs. set (m := k * p `div` k) in *.
  rewrite (Nat.mul_comm (p `div` k) k). fold m. lia.
Qed.

Lemma scan_ascending_when_filled : Ordering.ascending_when_filled ScanIndex.engine.
Proof.
  intros e batch k keys distances Hs Hk. cbn in Hs, Hk. unfold ScanIndex.search in Hs.
  destruct (Z.leb_spec k 0) as [|Hpos]; [done|]. cbv zeta in Hs.
  set (kn := Z.to_nat k) in *.
  set (found := map (λ q, ScanIndex.nearest e q kn)
                  (Np.chunks (Np.ncols batch) (Np.nrows batch) (Np.data batch))) in *.
  assert (Hw : Forall (λ row, length row = kn) found).
  { apply Forall_forall. intros row Hrow. unfold found in Hrow.
    apply list_elem_of_fmap in Hrow as (q & -> & _). by apply nearest_length. }
  assert (Hrows : (if (Np.nrows batch =? 1)%nat then found
                   else map (λ row, row ++ replicate (kn - length row) (0%Z, 0%Z)) found)
                  = found).
  { destruct (Np.nrows batch =? 1)%nat; [done|].
    clear Hs. induction Hw as [|row rows Hr _ IH]; simpl; [done|].
    rewrite IH, Hr, Nat.sub_diag. simpl. by rewrite app_nil_r. }
  assert (Hd : distances = concat (map (map snd)
            (if (Np.nrows batch =? 1)%nat then found
             else map (λ row, row ++ replicate (kn - length row) (0%Z, 0%Z)) found)))
    by (injection Hs as _ <-; reflexivity).
  rewrite Hrows in Hd. subst distances. clear Hs Hrows.
  intros p d1 d2 Hdiv H1 H2.
  destruct (same_row_succ kn p ltac:(lia) Hdiv) as (Hp & Hsp & Hj).
  assert (Hw' : Forall (λ row : list Z, length row = kn) (map (map snd) found)).
  { apply Forall_fmap. eapply Forall_impl; [exact Hw|]. intros row Hr. simpl.
    by rewrite length_map. }
  rewrite Hp, (concat_lookup_row kn) in H1 by (done || lia).
  rewrite Hsp, (concat_lookup_row kn) in H2 by done.
  rewrite list_lookup_fmap in H1, H2.
  destruct (found !! (p `div` kn)) as [row|] eqn:Hrow; [|done]. simpl in H1, H2.
  rewrite list_lookup_fmap in H1, H2.
  destruct (row !! (p `mod` kn)) as [a|] eqn:Ha; [|done].
  destruct (row !! S (p `mod` kn)) as [b|] eqn:Hb; [|done].
  injection H1 as <-. injection H2 as <-. cbn.
  apply list_elem_of_lookup_2, list_elem_of_fmap in Hrow as (q & -> & _).
  by eapply nearest_by_distance.
Qed.

End OrderingFacts.

(** * The specification's claims *)

Module Spec.

(** C1, as the code has it: whenever [query(vectors, k)] returns, [k] is
    positive and every result row holds exactly [k] keys and [k]
    distances, hence [k] (index, distance) pairs, whatever the number of
    vectors the adapter holds. *)
Theorem query_rows_have_k_pairs (E : UsearchIndex.Engine) (self : UsearchBackend.t E)
    (vectors : Np.NDArray (UsearchIndex.scalar E)) (k : Z)
    (rows : UsearchBackend.QueryResult E) :
  (UsearchBackend.query E self vectors k).1 = Py.Ok rows →
  (0 < k)%Z ∧
  Forall (λ row, length row.1 = Z.to_nat k ∧ length row.2 = Z.to_nat k ∧
                 length (zip row.1 row.2) = Z.to_nat k) rows.
Proof.
  intros H. apply QueryFacts.query_Ok in H as (keys & distances & _ & Hk & _ & Hw).
  split; [done|]. eapply Forall_impl; [exact Hw|].
  intros [ks ds] [H1 H2]; simpl in *. rewrite length_zip. lia.
Qed.

Lemma query_rows_have_k_pairs_witness :
  (UsearchBackend.query ScanIndex.engine Samples.adapter_three Samples.two_probes 2).1
    = Py.Ok [([0; 2], [0; 2]); ([1; 2], [1; 8])]%Z ∧
  ((0 < 2)%Z ∧
   Forall (λ row : list Z * list Z,
             length row.1 = Z.to_nat 2 ∧ length row.2 = Z.to_nat 2 ∧
             length (zip row.1 row.2) = Z.to_nat 2)
     [([0; 2], [0; 2]); ([1; 2], [1; 8])]%Z).
Proof.
  split; [reflexivity|].
  apply (query_rows_have_k_pairs ScanIndex.engine Samples.adapter_three
           Samples.two_probes 2).
  reflexivity.
Defined.

(** C1 as stated fails: an adapter holding one vector, asked for [k = 2]
    neighbours of two probes, answers with two pairs per probe, not one. *)
Lemma query_short_result_counterexample :
  UsearchBackend.from_vectors ScanIndex.engine Samples.one_vector "cos" 16 128 64 []
    = Py.Ok Samples.adapter_one ∧
  UsearchBackend.len ScanIndex.engine Samples.adapter_one = 1 ∧
  (UsearchBackend.query ScanIndex.engine Samples.adapter_one Samples.two_probes 2).1
    = Py.Ok [([0; 0], [5; 0]); ([0; 0], [5; 0])]%Z ∧
  ¬ Stated.short_result ScanIndex.engine Samples.adapter_one
      [([0; 0], [5; 0]); ([0; 0], [5; 0])]%Z.
Proof.
  split_and!; try reflexivity.
  unfold Stated.short_result. intros H. by inversion H.
Qed.

(** C2, as the code has it: [from_vectors] does not look at its extra
    keyword arguments; with any of them it does what it does with none. *)
Theorem from_vectors_ignores_kwargs (E : UsearchIndex.Engine)
    (vectors : Np.NDArray (UsearchIndex.scalar E)) (metric : string)
    (connectivity expansion_add expansion_search : Z)
    (kwargs : list (string * Py.object)) :
  UsearchBackend.from_vectors E vectors metric connectivity expansion_add
    expansion_search kwargs
  = UsearchBackend.from_vectors E vectors metric connectivity expansion_add
      expansion_search [].
Proof. reflexivity. Qed.

(** C2 as stated fails: a call with the unrecognised keyword [nlist]
    returns an adapter. *)
Lemma from_vectors_unknown_kwarg_counterexample :
  UsearchBackend.from_vectors ScanIndex.engine Samples.one_vector "cos" 16 128 64
    [("nlist", Py.PyInt 2)] = Py.Ok Samples.adapter_one ∧
  ¬ Stated.rejects_unknown ScanIndex.engine Samples.one_vector "cos" 16 128 64
      [("nlist", Py.PyInt 2)].
Proof.
  split; [reflexivity|]. unfold Stated.rejects_unknown. intros H.
  destruct H as [e He]; [|discriminate He].
  exists "nlist". split; [by apply list_elem_of_singleton|].
  unfold Stated.recognized. intros Hin.
  repeat (apply elem_of_cons in Hin as [Hin|Hin]; [discriminate Hin|]).
  by apply elem_of_nil in Hin.
Qed.

(** C3: [threshold(vectors, t)] leaves the adapter as it is; when
    [query(vectors, 100)] returns rows, it returns, row by row, the keys of
    exactly the pairs whose distance is strictly below [t], each a
    subsequence of the row's keys with at most 100 entries; when the query
    raises, it raises the same exception. *)
Theorem threshold_filters_query (E : UsearchIndex.Engine) (self : UsearchBackend.t E)
    (vectors : Np.NDArray (UsearchIndex.scalar E)) (t : UsearchIndex.float E) :
  (UsearchBackend.threshold E self vectors t).2 = self ∧
  match (UsearchBackend.query E self vectors 100).1 with
  | Py.Ok rows =>
      (UsearchBackend.threshold E self vectors t).1
        = Py.Ok (map (Contract.below E t) rows) ∧
      Forall (λ row, Contract.below E t row `sublist_of` row.1 ∧
                     length (Contract.below E t row) ≤ 100) rows
  | Py.Raise e => (UsearchBackend.threshold E self vectors t).1 = Py.Raise e
  end.
Proof.
  unfold UsearchBackend.threshold. rewrite QueryFacts.query_self.
  destruct ((UsearchBackend.query E self vectors 100).1) as [rows|e] eqn:Hq;
    simpl; [|done].
  split; [done|].
  apply QueryFacts.query_Ok in Hq as (keys & distances & _ & _ & _ & Hw).
  split.
  - apply QueryFacts.threshold_rows.
    eapply Forall_impl; [exact Hw|]. intros row [H1 H2]. simpl. congruence.
  - eapply Forall_impl; [exact Hw|]. intros row [H1 _].
    split; [apply QueryFacts.below_sublist|].
    etrans; [apply sublist_length, QueryFacts.below_sublist|]. rewrite H1. done.
Qed.

(** C4: [delete] raises the unsupported-operation error for every list of
    indices and returns the adapter it was given, so that its length, its
    dimension and its argument record are those of before. *)
Theorem delete_unsupported (E : UsearchIndex.Engine) (self : UsearchBackend.t E)
    (indices : list Z) :
  (∃ msg, (UsearchBackend.delete E self indices).1 = Py.Raise (Py.NotImplementedError msg)) ∧
  (UsearchBackend.delete E self indices).2 = self ∧
  UsearchBackend.len E (UsearchBackend.delete E self indices).2 = UsearchBackend.len E self ∧
  UsearchBackend.dim E (UsearchBackend.delete E self indices).2 = UsearchBackend.dim E self ∧
  UsearchBackend.arguments (UsearchBackend.delete E self indices).2
    = UsearchBackend.arguments self.
Proof. split_and!; [eexists|..]; reflexivity. Qed.

(** C5: for an engine that keeps its contract and an adapter made by
    [from_vectors], [load] and [insert], [save] to a directory followed by
    [load] from it returns an adapter with the same dimension, the same
    length and the same answer to every query. *)
Theorem save_load_roundtrip (E : UsearchIndex.Engine) (self : UsearchBackend.t E)
    (fs : gmap (list string) (UsearchBackend.file E)) (base_path : UsearchBackend.Path) :
  Contract.Laws E → Contract.built E self →
  ∃ loaded,
    UsearchBackend.load E (UsearchBackend.save E self fs base_path).2 base_path
      = Py.Ok loaded ∧
    UsearchBackend.dim E loaded = UsearchBackend.dim E self ∧
    UsearchBackend.len E loaded = UsearchBackend.len E self ∧
    ∀ probe k,
      (UsearchBackend.query E loaded probe k).1 = (UsearchBackend.query E self probe k).1.
Proof.
  intros L Hb. apply Invariant.built_configured in Hb as Hc.
  destruct (Invariant.configured_host E _ _ Hc) as [host Hh].
  exists self. split; [|done].
  unfold UsearchBackend.load, UsearchBackend.save. simpl.
  unfold UsearchBackend.read_arguments. rewrite lookup_insert_eq.
  rewrite BaseArgsFacts.load_dump. simpl.
  unfold Contract.init_of in Hh. rewrite Hh. simpl.
  unfold UsearchBackend.read_index.
  rewrite lookup_insert_ne
    by (intros Heq; by apply Invariant.joinpath_inj in Heq).
  rewrite lookup_insert_eq.
  rewrite (Contract.load_save L (UsearchBackend.arguments self)) by done.
  simpl. by destruct self.
Qed.

Lemma save_load_roundtrip_witness :
  Contract.Laws ScanIndex.engine ∧
  Contract.built ScanIndex.engine Samples.adapter_three ∧
  ∃ loaded,
    UsearchBackend.load ScanIndex.engine
      (UsearchBackend.save ScanIndex.engine Samples.adapter_three ∅ Samples.tmp).2
      Samples.tmp = Py.Ok loaded ∧
    UsearchBackend.dim ScanIndex.engine loaded = 2%Z ∧
    UsearchBackend.len ScanIndex.engine loaded = 3 ∧
    ∀ probe k,
      (UsearchBackend.query ScanIndex.engine loaded probe k).1
      = (UsearchBackend.query ScanIndex.engine Samples.adapter_three probe k).1.
Proof.
  assert (Hb : Contract.built ScanIndex.engine Samples.adapter_three).
  { by apply (Contract.built_from_vectors ScanIndex.engine Samples.three_vectors
                "cos" 16 128 64 []). }
  split_and!; [exact ScanIndexFacts.laws|exact Hb|].
  exact (save_load_roundtrip ScanIndex.engine Samples.adapter_three ∅ Samples.tmp
           ScanIndexFacts.laws Hb).
Defined.

(** C6: for an engine that keeps its contract, the adapter returned by
    [from_vectors(V, ...)] has length the row count of [V], and
    [from_vectors] returns such an adapter whenever the engine's
    constructor and its [add] return; an [insert(W)] that returns adds the
    row count of [W] to the length; and [insert] returns whenever the
    engine accepts the batch. *)
Theorem len_from_vectors_insert (E : UsearchIndex.Engine) :
  Contract.Laws E →
  (∀ vectors m c ea es kwargs b,
     UsearchBackend.from_vectors E vectors m c ea es kwargs = Py.Ok b →
     UsearchBackend.len E b = Np.nrows vectors) ∧
  (∀ vectors m c ea es kwargs e0 e1,
     UsearchIndex.init E (Z.of_nat (Np.ncols vectors)) m c ea es = Py.Ok e0 →
     UsearchIndex.add E e0 vectors = Py.Ok e1 →
     ∃ b, UsearchBackend.from_vectors E vectors m c ea es kwargs = Py.Ok b ∧
          UsearchBackend.index b = e1 ∧
          UsearchBackend.len E b = Np.nrows vectors) ∧
  (∀ self vectors self',
     UsearchBackend.insert E self vectors = (Py.Ok (), self') →
     UsearchBackend.len E self' = UsearchBackend.len E self + Np.nrows vectors) ∧
  (∀ self vectors e',
     UsearchIndex.add E (UsearchBackend.index self) vectors = Py.Ok e' →
     UsearchBackend.insert E self vectors
     = (Py.Ok (), UsearchBackend.mk e' (UsearchBackend.arguments self))).
Proof.
  intros L.
  assert (Hlen : ∀ vectors m c ea es kwargs b,
    UsearchBackend.from_vectors E vectors m c ea es kwargs = Py.Ok b →
    UsearchBackend.len E b = Np.nrows vectors).
  { intros vectors m c ea es kwargs b H.
    apply Invariant.from_vectors_Ok in H as (e0 & H0 & H1 & _).
    unfold UsearchBackend.len.
    rewrite (Contract.add_len L _ _ _ H1), (Contract.init_len L _ _ _ _ _ _ H0). done. }
  split_and!.
  - exact Hlen.
  - intros vectors m c ea es kwargs e0 e1 H0 H1.
    assert (Hb : UsearchBackend.from_vectors E vectors m c ea es kwargs
                 = Py.Ok (UsearchBackend.mk e1
                            (UsearchArgs.mk (Z.of_nat (Np.ncols vectors)) m c ea es))).
    { unfold UsearchBackend.from_vectors. rewrite H0. simpl. by rewrite H1. }
    eexists. split_and!; [exact Hb|done|exact (Hlen _ _ _ _ _ _ _ Hb)].
  - intros self vectors self' H. unfold UsearchBackend.insert in H.
    destruct (UsearchIndex.add E (UsearchBackend.index self) vectors) as [e'|x] eqn:Ha;
      [|done].
    injection H as <-. unfold UsearchBackend.len. simpl.
    apply (Contract.add_len L _ _ _ Ha).
  - intros self vectors e' H. unfold UsearchBackend.insert. by rewrite H.
Qed.

Lemma len_from_vectors_insert_witness :
  Contract.Laws ScanIndex.engine ∧
  UsearchBackend.from_vectors ScanIndex.engine Samples.three_vectors "cos" 16 128 64 []
    = Py.Ok Samples.adapter_three ∧
  (∃ b,
     UsearchBackend.from_vectors ScanIndex.engine Samples.three_vectors "cos" 16 128 64 []
       = Py.Ok b ∧
     UsearchBackend.index b = UsearchBackend.index Samples.adapter_three ∧
     UsearchBackend.len ScanIndex.engine b = 3) ∧
  UsearchBackend.insert ScanIndex.engine Samples.adapter_three Samples.one_vector
    = (Py.Ok (),
       @UsearchBackend.mk ScanIndex.engine
         (ScanIndex.mkState 2 "cos" 16 128 64 [[0; 0]; [3; 4]; [1; 1]; [1; 2]]%Z)
         Samples.cos_args) ∧
  UsearchBackend.len ScanIndex.engine
    (UsearchBackend.insert ScanIndex.engine Samples.adapter_three Samples.one_vector).2
  = 3 + 1.
Proof.
  destruct (len_from_vectors_insert ScanIndex.engine ScanIndexFacts.laws)
    as (_ & Hret & Hins & _).
  split_and!; [exact ScanIndexFacts.laws|reflexivity| |reflexivity|].
  - exact (Hret Samples.three_vectors "cos" 16%Z 128%Z 64%Z []
             (ScanIndex.mkState 2 "cos" 16 128 64 [])
             (UsearchBackend.index Samples.adapter_three) eq_refl eq_refl).
  - exact (Hins Samples.adapter_three Samples.one_vector _ eq_refl).
Defined.

(** C7, as the code has it: over an engine that returns full rows in
    order, and for [k] at most the number of vectors the adapter holds,
    every row of the result of [query(vectors, k)] has its distances in
    non-decreasing order; and the query returns such rows, one per [k]
    slots, whenever the engine answers with [q * k] keys and [q * k]
    distances. *)
Theorem query_full_rows_ascending (E : UsearchIndex.Engine) (self : UsearchBackend.t E)
    (vectors : Np.NDArray (UsearchIndex.scalar E)) (k : Z) :
  Ordering.ascending_when_filled E →
  Z.to_nat k ≤ UsearchBackend.len E self →
  (∀ rows,
     (UsearchBackend.query E self vectors k).1 = Py.Ok rows →
     Forall (λ row, Contract.ascending E row.2) rows) ∧
  (∀ keys distances q,
     UsearchIndex.search E (UsearchBackend.index self) vectors k = Py.Ok (keys, distances) →
     (0 < k)%Z →
     length keys = q * Z.to_nat k → length distances = q * Z.to_nat k →
     ∃ rows,
       (UsearchBackend.query E self vectors k).1 = Py.Ok rows ∧
       length rows = q ∧
       Forall (λ row, Contract.ascending E row.2) rows).
Proof.
  intros Hlaw Hk.
  assert (Hasc : ∀ rows,
    (UsearchBackend.query E self vectors k).1 = Py.Ok rows →
    Forall (λ row, Contract.ascending E row.2) rows).
  { intros rows Hq.
    destruct (QueryFacts.query_Ok E _ _ _ _ Hq) as (keys & distances & Hs & _).
    eapply OrderingFacts.query_keeps_row_order; [exact Hs| |exact Hq].
    by eapply Hlaw. }
  split; [exact Hasc|].
  intros keys distances q Hs Hpos Hkeys Hdist.
  assert (Hq : ∀ n, n = q * Z.to_nat k → n `mod` Z.to_nat k = 0 ∧ n `div` Z.to_nat k = q).
  { intros n ->. split; [apply Nat.Div0.mod_mul|apply Nat.div_mul; lia]. }
  destruct (Hq _ Hkeys) as [Hkm Hkd]. destruct (Hq _ Hdist) as [Hdm Hdd].
  destruct (QueryFacts.query_returns E self vectors k keys distances Hs Hpos Hkm Hdm)
    as [rows Hrows].
  exists rows. split_and!; [done| |by apply Hasc].
  destruct (QueryFacts.query_Ok E _ _ _ _ Hrows) as (keys' & distances' & Hs' & _ & -> & _).
  rewrite Hs in Hs'. injection Hs' as <- <-.
  rewrite length_zip, !NpFacts.chunks_length, Hkd, Hdd. lia.
Qed.

Lemma query_full_rows_ascending_witness :
  Ordering.ascending_when_filled ScanIndex.engine ∧
  Z.to_nat 2 ≤ UsearchBackend.len ScanIndex.engine Samples.adapter_three ∧
  (UsearchBackend.query ScanIndex.engine Samples.adapter_three Samples.two_probes 2).1
    = Py.Ok [([0; 2], [0; 2]); ([1; 2], [1; 8])]%Z ∧
  Forall (λ row : list Z * list Z, Contract.ascending ScanIndex.engine row.2)
    [([0; 2], [0; 2]); ([1; 2], [1; 8])]%Z.
Proof.
  assert (Hk : Z.to_nat 2 ≤ UsearchBackend.len ScanIndex.engine Samples.adapter_three)
    by (vm_compute; lia).
  split_and!; [exact OrderingFacts.scan_ascending_when_filled|exact Hk|reflexivity|].
  exact (proj1 (query_full_rows_ascending ScanIndex.engine Samples.adapter_three
                  Samples.two_probes 2 OrderingFacts.scan_ascending_when_filled Hk)
           _ eq_refl).
Defined.

(** C7 as stated fails: an adapter holding three vectors, asked for
    [k = 5] neighbours of two probes, answers with rows of five slots of
    which the last two were never filled, and the distances of the first
    row, 0, 2, 25, 0, 0, are not in non-decreasing order. *)
Lemma query_distances_ascending_counterexample :
  UsearchBackend.from_vectors ScanIndex.engine Samples.three_vectors "cos" 16 128 64 []
    = Py.Ok Samples.adapter_three ∧
  (1 ≤ 5)%Z ∧
  (UsearchBackend.query ScanIndex.engine Samples.adapter_three Samples.two_probes 5).1
    = Py.Ok [([0; 2; 1; 0; 0], [0; 2; 25; 0; 0]);
             ([1; 2; 0; 0; 0], [1; 8; 18; 0; 0])]%Z ∧
  ¬ Forall (λ row : list Z * list Z, Contract.ascending ScanIndex.engine row.2)
      [([0; 2; 1; 0; 0], [0; 2; 25; 0; 0]);
       ([1; 2; 0; 0; 0], [1; 8; 18; 0; 0])]%Z.
Proof.
  split_and!; [reflexivity|lia|reflexivity|].
  intros H. apply Forall_cons_1 in H as [H _].
  specialize (H 2 25%Z 0%Z eq_refl eq_refl). discriminate H.
Qed.

(** C8: for an engine that keeps its contract, the adapter returned by
    [from_vectors] has [dim] equal to the column count of the batch, and
    its argument record holds that column count and the four parameters
    as passed; and [from_vectors] returns whenever the engine's
    constructor and its [add] do. *)
Theorem from_vectors_dim_arguments (E : UsearchIndex.Engine)
    (vectors : Np.NDArray (UsearchIndex.scalar E)) (metric : string)
    (connectivity expansion_add expansion_search : Z)
    (kwargs : list (string * Py.object)) :
  Contract.Laws E →
  (∀ b,
     UsearchBackend.from_vectors E vectors metric connectivity expansion_add
       expansion_search kwargs = Py.Ok b →
     UsearchBackend.dim E b = Z.of_nat (Np.ncols vectors) ∧
     UsearchBackend.arguments b
     = UsearchArgs.mk (Z.of_nat (Np.ncols vectors)) metric connectivity
         expansion_add expansion_search) ∧
  (∀ e0 e1,
     UsearchIndex.init E (Z.of_nat (Np.ncols vectors)) metric connectivity
       expansion_add expansion_search = Py.Ok e0 →
     UsearchIndex.add E e0 vectors = Py.Ok e1 →
     ∃ b, UsearchBackend.from_vectors E vectors metric connectivity expansion_add
            expansion_search kwargs = Py.Ok b ∧ UsearchBackend.index b = e1).
Proof.
  intros L. split.
  - intros b H. apply Invariant.from_vectors_Ok in H as (e0 & H0 & H1 & Ha).
    split; [|done]. unfold UsearchBackend.dim.
    rewrite (Contract.add_ndim L _ _ _ H1). apply (Contract.init_ndim L _ _ _ _ _ _ H0).
  - intros e0 e1 H0 H1. unfold UsearchBackend.from_vectors.
    rewrite H0. simpl. rewrite H1. simpl. eauto.
Qed.

Lemma from_vectors_dim_arguments_witness :
  Contract.Laws ScanIndex.engine ∧
  UsearchBackend.from_vectors ScanIndex.engine Samples.three_vectors "cos" 16 128 64 []
    = Py.Ok Samples.adapter_three ∧
  UsearchBackend.dim ScanIndex.engine Samples.adapter_three = 2%Z ∧
  UsearchBackend.arguments Samples.adapter_three = UsearchArgs.mk 2 "cos" 16 128 64.
Proof.
  split_and!; [exact ScanIndexFacts.laws|reflexivity|..];
    apply (proj1 (from_vectors_dim_arguments ScanIndex.engine Samples.three_vectors
                    "cos" 16 128 64 [] ScanIndexFacts.laws) Samples.adapter_three eq_refl).
Defined.

(** C9: none of [query], [insert], [delete], [threshold] and [save]
    changes the argument record of the adapter; and an adapter returned by
    [load] carries the record read from [arguments.json], its engine being
    the one constructed from the five fields of that record and then
    filled from the index file. *)
Theorem arguments_never_mutated (E : UsearchIndex.Engine) (self : UsearchBackend.t E) :
  (∀ vectors k,
     UsearchBackend.arguments (UsearchBackend.query E self vectors k).2
     = UsearchBackend.arguments self) ∧
  (∀ vectors,
     UsearchBackend.arguments (UsearchBackend.insert E self vectors).2
     = UsearchBackend.arguments self) ∧
  (∀ indices,
     UsearchBackend.arguments (UsearchBackend.delete E self indices).2
     = UsearchBackend.arguments self) ∧
  (∀ vectors t,
     UsearchBackend.arguments (UsearchBackend.threshold E self vectors t).2
     = UsearchBackend.arguments self) ∧
  (∀ fs base_path,
     UsearchBackend.arguments (UsearchBackend.save E self fs base_path).1.2
     = UsearchBackend.arguments self) ∧
  (∀ fs base_path loaded,
     UsearchBackend.load E fs base_path = Py.Ok loaded →
     ∃ obj image host,
       fs !! UsearchBackend.joinpath base_path "arguments.json"
         = Some (UsearchBackend.ArgumentsFile obj) ∧
       BaseArgs.load obj = Py.Ok (UsearchBackend.arguments loaded) ∧
       fs !! UsearchBackend.joinpath base_path "index.usearch"
         = Some (UsearchBackend.IndexFile image) ∧
       UsearchIndex.init E
         (UsearchArgs.dim (UsearchBackend.arguments loaded))
         (UsearchArgs.metric (UsearchBackend.arguments loaded))
         (UsearchArgs.connectivity (UsearchBackend.arguments loaded))
         (UsearchArgs.expansion_add (UsearchBackend.arguments loaded))
         (UsearchArgs.expansion_search (UsearchBackend.arguments loaded))
         = Py.Ok host ∧
       UsearchIndex.load E host image = Py.Ok (UsearchBackend.index loaded)).
Proof.
  split_and!.
  - done.
  - intros vectors. unfold UsearchBackend.insert.
    by destruct (UsearchIndex.add E (UsearchBackend.index self) vectors).
  - done.
  - intros vectors t. unfold UsearchBackend.threshold.
    by rewrite QueryFacts.query_self.
  - done.
  - intros fs base_path loaded H. by apply Invariant.load_Ok in H.
Qed.

Lemma arguments_never_mutated_witness :
  UsearchBackend.arguments
    (UsearchBackend.insert ScanIndex.engine Samples.adapter_three Samples.one_vector).2
    = Samples.cos_args ∧
  UsearchBackend.load ScanIndex.engine
    (UsearchBackend.save ScanIndex.engine Samples.adapter_three ∅ Samples.tmp).2
    Samples.tmp = Py.Ok Samples.adapter_three ∧
  ∃ obj image host,
    BaseArgs.load obj = Py.Ok Samples.cos_args ∧
    ScanIndex.init 2 "cos" 16 128 64 = Py.Ok host ∧
    ScanIndex.load host image = Py.Ok (UsearchBackend.index Samples.adapter_three).
Proof.
  destruct (arguments_never_mutated ScanIndex.engine Samples.adapter_three)
    as (_ & Hins & _ & _ & _ & Hload).
  assert (Hl : UsearchBackend.load ScanIndex.engine
                 (UsearchBackend.save ScanIndex.engine Samples.adapter_three ∅
                    Samples.tmp).2 Samples.tmp = Py.Ok Samples.adapter_three)
    by (vm_compute; reflexivity).
  split_and!; [exact (Hins Samples.one_vector)|exact Hl|].
  destruct (Hload _ _ _ Hl) as (obj & image & host & _ & Ha & _ & Hh & Hi).
  exists obj, image, host. split_and!; [exact Ha|exact Hh|exact Hi].
Defined.

(** C10: [save] returns normally with the adapter it was given, so the
    adapter's dimension, length, argument record and answer to every query
    are those of before; in the directory tree it writes the two files
    [index.usearch] and [arguments.json] of the given directory and leaves
    every other path as it was. *)
Theorem save_leaves_adapter (E : UsearchIndex.Engine) (self : UsearchBackend.t E)
    (fs : gmap (list string) (UsearchBackend.file E)) (base_path : UsearchBackend.Path) :
  (UsearchBackend.save E self fs base_path).1.1 = Py.Ok () ∧
  (UsearchBackend.save E self fs base_path).1.2 = self ∧
  UsearchBackend.dim E (UsearchBackend.save E self fs base_path).1.2
    = UsearchBackend.dim E self ∧
  UsearchBackend.len E (UsearchBackend.save E self fs base_path).1.2
    = UsearchBackend.len E self ∧
  UsearchBackend.arguments (UsearchBackend.save E self fs base_path).1.2
    = UsearchBackend.arguments self ∧
  (∀ probe k,
     (UsearchBackend.query E (UsearchBackend.save E self fs base_path).1.2 probe k).1
     = (UsearchBackend.query E self probe k).1) ∧
  (UsearchBackend.save E self fs base_path).2
    !! UsearchBackend.joinpath base_path "index.usearch"
    = Some (UsearchBackend.IndexFile (UsearchIndex.save E (UsearchBackend.index self))) ∧
  (UsearchBackend.save E self fs base_path).2
    !! UsearchBackend.joinpath base_path "arguments.json"
    = Some (UsearchBackend.ArgumentsFile (BaseArgs.dump (UsearchBackend.arguments self))) ∧
  (∀ p : list string,
     p ≠ UsearchBackend.joinpath base_path "index.usearch" →
     p ≠ UsearchBackend.joinpath base_path "arguments.json" →
     (UsearchBackend.save E self fs base_path).2 !! p = fs !! p).
Proof.
  split_and!; try done; unfold UsearchBackend.save; simpl.
  - rewrite lookup_insert_ne
      by (intros Heq; by apply Invariant.joinpath_inj in Heq).
    by rewrite lookup_insert_eq.
  - by rewrite lookup_insert_eq.
  - intros p H1 H2. by rewrite !lookup_insert_ne.
Qed.

Lemma save_leaves_adapter_witness :
  ["tmp"; "other"] ≠ UsearchBackend.joinpath Samples.tmp "index.usearch" ∧
  ["tmp"; "other"] ≠ UsearchBackend.joinpath Samples.tmp "arguments.json" ∧
  (UsearchBackend.save ScanIndex.engine Samples.adapter_three ∅ Samples.tmp).2
    !! ["tmp"; "other"] = None.
Proof.
  assert (H1 : ["tmp"; "other"] ≠ UsearchBackend.joinpath Samples.tmp "index.usearch")
    by discriminate.
  assert (H2 : ["tmp"; "other"] ≠ UsearchBackend.joinpath Samples.tmp "arguments.json")
    by discriminate.
  split_and!; [exact H1|exact H2|].
  destruct (save_leaves_adapter ScanIndex.engine Samples.adapter_three ∅ Samples.tmp)
    as (_ & _ & _ & _ & _ & _ & _ & _ & Hframe).
  exact (Hframe ["tmp"; "other"] H1 H2).
Defined.

End Spec.

(** ** Further facts on arrays, queries and files *)

Module MoreFacts.

Lemma chunks_concat {A : Type} (k rows : nat) (l : list A) :
  length l = rows * k → concat (Np.chunks k rows l) = l.
Proof.
  revert l; induction rows as [|r IH]; intros l Hl; simpl.
  - symmetry. by apply nil_length_inv.
  - rewrite IH; [apply take_drop|]. rewrite length_drop. simpl in Hl. lia.
Qed.

Lemma filter_weaken_sublist {A : Type} (P Q : A → Prop)
    `{!∀ x, Decision (P x)} `{!∀ x, Decision (Q x)} (l : list A) :
  (∀ x, P x → Q x) → filter P l `sublist_of` filter Q l.
Proof.
  intros HPQ. induction l as [|x l IH]; [done|].
  rewrite !filter_cons. destruct (decide (P x)) as [HP|HP].
  - rewrite decide_True by auto. by apply sublist_skip.
  - destruct (decide (Q x)); [by apply sublist_cons|done].
Qed.

Section MoreFacts.

Context (E : UsearchIndex.Engine).

Lemma threshold_Ok (self : UsearchBackend.t E) vectors (t : UsearchIndex.float E) rows :
  (UsearchBackend.query E self vectors 100).1 = Py.Ok rows →
  (UsearchBackend.threshold E self vectors t).1 = Py.Ok (map (Contract.below E t) rows).
Proof.
  intros Hq. unfold UsearchBackend.threshold. rewrite QueryFacts.query_self.
  rewrite Hq. simpl.
  apply QueryFacts.query_Ok in Hq as (keys & distances & _ & _ & _ & Hw).
  apply QueryFacts.threshold_rows.
  eapply Forall_impl; [exact Hw|]. intros row [H1 H2]. simpl. congruence.
Qed.

(** [load] looks at two files only. *)
Lemma load_agree (fs1 fs2 : gmap (list string) (UsearchBackend.file E))
    (base_path : UsearchBackend.Path) :
  fs1 !! UsearchBackend.joinpath base_path "index.usearch"
    = fs2 !! UsearchBackend.joinpath base_path "index.usearch" →
  fs1 !! UsearchBackend.joinpath base_path "arguments.json"
    = fs2 !! UsearchBackend.joinpath base_path "arguments.json" →
  UsearchBackend.load E fs1 base_path = UsearchBackend.load E fs2 base_path.
Proof.
  intros Hi Ha. unfold UsearchBackend.load, UsearchBackend.read_arguments,
    UsearchBackend.read_index. by rewrite Hi, Ha.
Qed.

Lemma load_save (self : UsearchBackend.t E)
    (fs : gmap (list string) (UsearchBackend.file E)) (base_path : UsearchBackend.Path) :
  Contract.Laws E → Contract.built E self →
  UsearchBackend.load E (UsearchBackend.save E self fs base_path).2 base_path
  = Py.Ok self.
Proof.
  intros L Hb. apply Invariant.built_configured in Hb as Hc.
  destruct (Invariant.configured_host E _ _ Hc) as [host Hh].
  unfold UsearchBackend.load, UsearchBackend.save. simpl.
  unfold UsearchBackend.read_arguments. rewrite lookup_insert_eq.
  rewrite BaseArgsFacts.load_dump. simpl.
  unfold Contract.init_of in Hh. rewrite Hh. simpl.
  unfold UsearchBackend.read_index.
  rewrite lookup_insert_ne
    by (intros Heq; by apply Invariant.joinpath_inj in Heq).
  rewrite lookup_insert_eq.
  rewrite (Contract.load_save L (UsearchBackend.arguments self)) by done.
  simpl. by destruct self.
Qed.

Lemma joinpath_base (p1 p2 : UsearchBackend.Path) (n1 n2 : string) :
  UsearchBackend.joinpath p1 n1 = UsearchBackend.joinpath p2 n2 → p1 = p2.
Proof. unfold UsearchBackend.joinpath. intros H. by apply app_inj_tail in H as [-> _]. Qed.

(** A [save] into a directory that neither contains [base_path] nor lies
    inside it leaves what [load] reads under [base_path] as it was. *)
Lemma load_after_save_elsewhere (other : UsearchBackend.t E)
    (fs : gmap (list string) (UsearchBackend.file E))
    (base_path elsewhere : UsearchBackend.Path) :
  ¬ base_path `prefix_of` elsewhere → ¬ elsewhere `prefix_of` base_path →
  UsearchBackend.load E (UsearchBackend.save E other fs elsewhere).2 base_path
  = UsearchBackend.load E fs base_path.
Proof.
  intros Hn _.
  assert (Hne : ∀ n1 n2,
    UsearchBackend.joinpath elsewhere n1 ≠ UsearchBackend.joinpath base_path n2).
  { intros n1 n2 Heq. apply joinpath_base in Heq as ->. by apply Hn. }
  apply load_agree; unfold UsearchBackend.save; simpl;
    by rewrite !lookup_insert_ne by apply Hne.
Qed.

End MoreFacts.

(** Two parameter sets with the same test id are the same, unless one
    carries an empty index type. *)
Lemma backend_id_eq (p1 p2 : Conftest.Backend * option string) :
  p1.2 ≠ Some "" → p2.2 ≠ Some "" →
  Conftest.backend_id p1 = Conftest.backend_id p2 → p1 = p2.
Proof.
  destruct p1 as [b1 [t1|]], p2 as [b2 [t2|]]; unfold Conftest.backend_id; simpl;
    intros H1 H2.
  - destruct (String.eqb_spec t1 "") as [->|_]; [done|].
    destruct (String.eqb_spec t2 "") as [->|_]; [done|].
    destruct b1, b2; simpl; intros H; by simplify_eq.
  - destruct (String.eqb_spec t1 "") as [->|_]; [done|].
    destruct b1, b2; simpl; intros H; by simplify_eq.
  - destruct (String.eqb_spec t2 "") as [->|_]; [done|].
    destruct b1, b2; simpl; intros H; by simplify_eq.
  - destruct b1, b2; simpl; intros H; by simplify_eq.
Qed.

Lemma item_name_inj (i j : nat) : "item" +:+ pretty i = "item" +:+ pretty j → i = j.
Proof.
  intros H. injection H as H. change (pretty i = pretty j) in H.
  by apply (inj pretty) in H.
Qed.

End MoreFacts.

(** * Further properties of the code *)

Module Extra.

(** X1: when the engine answers a search with [q * k] keys and [q * k]
    distances, [query] returns [q] rows, and the rows laid end to end are
    the engine's keys and the engine's distances: nothing is lost, added
    or reordered. *)
Theorem query_keeps_engine_answer (E : UsearchIndex.Engine) (self : UsearchBackend.t E)
    (vectors : Np.NDArray (UsearchIndex.scalar E)) (k : Z) (q : nat)
    (keys : list Z) (distances : list (UsearchIndex.float32 E)) :
  UsearchIndex.search E (UsearchBackend.index self) vectors k = Py.Ok (keys, distances) →
  (0 < k)%Z →
  length keys = q * Z.to_nat k → length distances = q * Z.to_nat k →
  ∃ rows,
    (UsearchBackend.query E self vectors k).1 = Py.Ok rows ∧
    length rows = q ∧
    concat rows.*1 = keys ∧ concat rows.*2 = distances.
Proof.
  intros Hs Hk Hkeys Hdist.
  assert (Hq : ∀ n, n = q * Z.to_nat k → n `mod` Z.to_nat k = 0 ∧ n `div` Z.to_nat k = q).
  { intros n ->. split; [apply Nat.Div0.mod_mul|apply Nat.div_mul; lia]. }
  destruct (Hq _ Hkeys) as [Hkm Hkd]. destruct (Hq _ Hdist) as [Hdm Hdd].
  eexists. unfold UsearchBackend.query. simpl. rewrite Hs. simpl.
  rewrite !NpFacts.reshape_rows_returns by done. simpl. rewrite Hkd, Hdd.
  split; [done|].
  rewrite length_zip, !NpFacts.chunks_length.
  rewrite fst_zip, snd_zip by (by rewrite !NpFacts.chunks_length).
  rewrite !MoreFacts.chunks_concat by done. split_and!; [lia|done..].
Qed.

Lemma query_keeps_engine_answer_witness :
  ∃ rows,
    (UsearchBackend.query ScanIndex.engine Samples.adapter_three Samples.two_probes 2).1
      = Py.Ok rows ∧
    length rows = 2 ∧
    concat rows.*1 = [0; 2; 1; 2]%Z ∧ concat rows.*2 = [0; 2; 1; 8]%Z.
Proof.
  apply (query_keeps_engine_answer ScanIndex.engine Samples.adapter_three
           Samples.two_probes 2 2 [0; 2; 1; 2]%Z [0; 2; 1; 8]%Z);
    [reflexivity|lia|reflexivity|reflexivity].
Defined.

(** X2: [query(vectors, k)] returns exactly when the engine's search
    returns, [k] is positive and [k] divides the number of keys and the
    number of distances; when the search returns and one of these fails,
    [query] raises [ValueError]; when the search raises, [query] raises
    the same exception. *)
Theorem query_returns_iff (E : UsearchIndex.Engine) (self : UsearchBackend.t E)
    (vectors : Np.NDArray (UsearchIndex.scalar E)) (k : Z) :
  ((∃ rows, (UsearchBackend.query E self vectors k).1 = Py.Ok rows) ↔
   ∃ keys distances,
     UsearchIndex.search E (UsearchBackend.index self) vectors k = Py.Ok (keys, distances) ∧
     (0 < k)%Z ∧ length keys `mod` Z.to_nat k = 0 ∧
     length distances `mod` Z.to_nat k = 0) ∧
  (∀ keys distances,
     UsearchIndex.search E (UsearchBackend.index self) vectors k = Py.Ok (keys, distances) →
     ¬ ((0 < k)%Z ∧ length keys `mod` Z.to_nat k = 0 ∧
        length distances `mod` Z.to_nat k = 0) →
     (UsearchBackend.query E self vectors k).1 = Py.Raise Py.ValueError) ∧
  (∀ e,
     UsearchIndex.search E (UsearchBackend.index self) vectors k = Py.Raise e →
     (UsearchBackend.query E self vectors k).1 = Py.Raise e).
Proof.
  assert (Hshape : ∀ keys distances,
    UsearchIndex.search E (UsearchBackend.index self) vectors k = Py.Ok (keys, distances) →
    ((0 < k)%Z ∧ length keys `mod` Z.to_nat k = 0 ∧ length distances `mod` Z.to_nat k = 0 ∧
     ∃ rows, (UsearchBackend.query E self vectors k).1 = Py.Ok rows) ∨
    (¬ ((0 < k)%Z ∧ length keys `mod` Z.to_nat k = 0 ∧
        length distances `mod` Z.to_nat k = 0) ∧
     (UsearchBackend.query E self vectors k).1 = Py.Raise Py.ValueError)).
  { intros keys distances Hs. unfold UsearchBackend.query. simpl. rewrite Hs. simpl.
    unfold Np.reshape_rows. destruct (Z.leb_spec k 0) as [Hk|Hk]; simpl.
    { right. split; [lia|done]. }
    destruct (Nat.eqb_spec (length keys `mod` Z.to_nat k) 0) as [Hkm|Hkm]; simpl;
      [|right; split; [tauto|done]].
    destruct (Nat.eqb_spec (length distances `mod` Z.to_nat k) 0) as [Hdm|Hdm]; simpl;
      [|right; split; [tauto|done]].
    left. eauto. }
  split_and!.
  - split.
    + intros [rows Hq].
      destruct (UsearchIndex.search E (UsearchBackend.index self) vectors k)
        as [[keys distances]|e] eqn:Hs.
      * destruct (Hshape _ _ eq_refl) as [(? & ? & ? & _)|[_ Hr]]; [by eauto 10|].
        rewrite Hq in Hr. discriminate Hr.
      * unfold UsearchBackend.query in Hq. simpl in Hq. rewrite Hs in Hq. discriminate Hq.
    + intros (keys & distances & Hs & Hk & Hkm & Hdm).
      destruct (Hshape _ _ Hs) as [(_ & _ & _ & Hr)|[Hn _]]; [done|tauto].
  - intros keys distances Hs Hn.
    destruct (Hshape _ _ Hs) as [(? & ? & ? & _)|[_ Hr]]; [tauto|done].
  - intros e Hs. unfold UsearchBackend.query. simpl. by rewrite Hs.
Qed.

Lemma query_returns_iff_witness :
  UsearchIndex.search ScanIndex.engine (UsearchBackend.index Samples.adapter_one)
    MoreSamples.one_probe 2 = Py.Ok ([0], [5])%Z ∧
  ¬ ((0 < 2)%Z ∧ length [0%Z] `mod` Z.to_nat 2 = 0 ∧ length [5%Z] `mod` Z.to_nat 2 = 0) ∧
  (UsearchBackend.query ScanIndex.engine Samples.adapter_one MoreSamples.one_probe 2).1
    = Py.Raise Py.ValueError.
Proof.
  assert (Hn : ¬ ((0 < 2)%Z ∧ length [0%Z] `mod` Z.to_nat 2 = 0 ∧
                  length [5%Z] `mod` Z.to_nat 2 = 0))
    by (intros (_ & H & _); discriminate H).
  split_and!; [reflexivity|exact Hn|].
  destruct (query_returns_iff ScanIndex.engine Samples.adapter_one
              MoreSamples.one_probe 2) as (_ & Hraise & _).
  exact (Hraise [0%Z] [5%Z] eq_refl Hn).
Defined.

(** X3: raising the threshold never loses a result: when every distance
    below [t1] is also below [t2] and [query(vectors, 100)] returns,
    [threshold(vectors, t1)] and [threshold(vectors, t2)] both return, row
    for row, and each row for [t1] is a subsequence of the row for [t2]. *)
Theorem threshold_monotone (E : UsearchIndex.Engine) (self : UsearchBackend.t E)
    (vectors : Np.NDArray (UsearchIndex.scalar E)) (t1 t2 : UsearchIndex.float E)
    (rows : UsearchBackend.QueryResult E) :
  (∀ d, UsearchIndex.f32_lt E d t1 = true → UsearchIndex.f32_lt E d t2 = true) →
  (UsearchBackend.query E self vectors 100).1 = Py.Ok rows →
  ∃ out1 out2,
    (UsearchBackend.threshold E self vectors t1).1 = Py.Ok out1 ∧
    (UsearchBackend.threshold E self vectors t2).1 = Py.Ok out2 ∧
    length out1 = length rows ∧
    Forall2 (λ row1 row2, row1 `sublist_of` row2) out1 out2.
Proof.
  intros Ht Hq. eexists _, _.
  split_and!; [by apply MoreFacts.threshold_Ok..|by rewrite length_map|].
  apply Forall2_fmap, Forall_Forall2_diag, Forall_forall. intros row _.
  unfold Contract.below. apply fmap_sublist.
  apply MoreFacts.filter_weaken_sublist. intros p. apply Ht.
Qed.

Lemma threshold_monotone_witness :
  (∀ d : Z, (d <? 1)%Z = true → (d <? 5)%Z = true) ∧
  ∃ rows out1 out2,
    (UsearchBackend.query ScanIndex.engine Samples.adapter_three Samples.two_probes 100).1
      = Py.Ok rows ∧
    (UsearchBackend.threshold ScanIndex.engine Samples.adapter_three Samples.two_probes
       1%Z).1 = Py.Ok out1 ∧
    (UsearchBackend.threshold ScanIndex.engine Samples.adapter_three Samples.two_probes
       5%Z).1 = Py.Ok out2 ∧
    length out1 = length rows ∧
    Forall2 (λ row1 row2 : list Z, row1 `sublist_of` row2) out1 out2.
Proof.
  assert (Ht : ∀ d : Z, (d <? 1)%Z = true → (d <? 5)%Z = true).
  { intros d H. apply Z.ltb_lt in H. apply Z.ltb_lt. lia. }
  split; [exact Ht|].
  destruct (UsearchBackend.query ScanIndex.engine Samples.adapter_three
              Samples.two_probes 100).1 as [rows|e] eqn:Hq;
    [|vm_compute in Hq; discriminate Hq].
  exists rows.
  destruct (threshold_monotone ScanIndex.engine Samples.adapter_three Samples.two_probes
              1%Z 5%Z rows Ht Hq) as (out1 & out2 & H).
  exists out1, out2. split; [reflexivity|exact H].
Defined.

(** X4: a [save] into one directory does not change what [load] gives for
    another, when neither directory lies inside the other: [load] from
    [base_path] returns (or raises) after the [save] what it did before. *)
Theorem save_elsewhere_keeps_load (E : UsearchIndex.Engine) (other : UsearchBackend.t E)
    (fs : gmap (list string) (UsearchBackend.file E))
    (base_path elsewhere : UsearchBackend.Path) :
  ¬ base_path `prefix_of` elsewhere → ¬ elsewhere `prefix_of` base_path →
  UsearchBackend.load E (UsearchBackend.save E other fs elsewhere).2 base_path
  = UsearchBackend.load E fs base_path.
Proof. apply MoreFacts.load_after_save_elsewhere. Qed.

Lemma save_elsewhere_keeps_load_witness :
  ¬ Samples.tmp `prefix_of` MoreSamples.other ∧
  ¬ MoreSamples.other `prefix_of` Samples.tmp ∧
  UsearchBackend.load ScanIndex.engine
    (UsearchBackend.save ScanIndex.engine Samples.adapter_one ∅ MoreSamples.other).2
    Samples.tmp
  = UsearchBackend.load ScanIndex.engine ∅ Samples.tmp.
Proof.
  assert (H1 : ¬ Samples.tmp `prefix_of` MoreSamples.other)
    by (intros [k Hk]; discriminate Hk).
  assert (H2 : ¬ MoreSamples.other `prefix_of` Samples.tmp)
    by (intros [k Hk]; discriminate Hk).
  split_and!; [exact H1|exact H2|].
  exact (save_elsewhere_keeps_load ScanIndex.engine Samples.adapter_one ∅
           Samples.tmp MoreSamples.other H1 H2).
Defined.

(** X5: for an engine that keeps its contract, an adapter saved to a
    directory is loaded back from it as the very same adapter, engine
    state and argument record, also when another adapter has been saved to
    an unrelated directory in between. *)
Theorem load_returns_saved_adapter (E : UsearchIndex.Engine)
    (self other : UsearchBackend.t E)
    (fs : gmap (list string) (UsearchBackend.file E))
    (base_path elsewhere : UsearchBackend.Path) :
  Contract.Laws E → Contract.built E self →
  ¬ base_path `prefix_of` elsewhere → ¬ elsewhere `prefix_of` base_path →
  UsearchBackend.load E
    (UsearchBackend.save E other (UsearchBackend.save E self fs base_path).2 elsewhere).2
    base_path
  = Py.Ok self.
Proof.
  intros L Hb H1 H2. rewrite MoreFacts.load_after_save_elsewhere by done.
  by apply MoreFacts.load_save.
Qed.

Lemma load_returns_saved_adapter_witness :
  Contract.Laws ScanIndex.engine ∧
  Contract.built ScanIndex.engine Samples.adapter_three ∧
  ¬ Samples.tmp `prefix_of` MoreSamples.other ∧
  ¬ MoreSamples.other `prefix_of` Samples.tmp ∧
  UsearchBackend.load ScanIndex.engine
    (UsearchBackend.save ScanIndex.engine Samples.adapter_one
       (UsearchBackend.save ScanIndex.engine Samples.adapter_three ∅ Samples.tmp).2
       MoreSamples.other).2
    Samples.tmp
  = Py.Ok Samples.adapter_three.
Proof.
  assert (Hb : Contract.built ScanIndex.engine Samples.adapter_three).
  { by apply (Contract.built_from_vectors ScanIndex.engine Samples.three_vectors
                "cos" 16 128 64 []). }
  assert (H1 : ¬ Samples.tmp `prefix_of` MoreSamples.other)
    by (intros [k Hk]; discriminate Hk).
  assert (H2 : ¬ MoreSamples.other `prefix_of` Samples.tmp)
    by (intros [k Hk]; discriminate Hk).
  split_and!; [exact ScanIndexFacts.laws|exact Hb|exact H1|exact H2|].
  exact (load_returns_saved_adapter ScanIndex.engine Samples.adapter_three
           Samples.adapter_one ∅ Samples.tmp MoreSamples.other
           ScanIndexFacts.laws Hb H1 H2).
Defined.

(** X6: for an engine that keeps its contract, the argument record of
    every adapter made by [from_vectors], [load] and [insert] is one the
    engine's constructor accepts, and the index it constructs is empty and
    has the dimension the record names: this is the call [load] makes
    before it reads the index file. *)
Theorem arguments_construct_empty_index (E : UsearchIndex.Engine)
    (self : UsearchBackend.t E) :
  Contract.Laws E → Contract.built E self →
  ∃ host,
    UsearchIndex.init E
      (UsearchArgs.dim (UsearchBackend.arguments self))
      (UsearchArgs.metric (UsearchBackend.arguments self))
      (UsearchArgs.connectivity (UsearchBackend.arguments self))
      (UsearchArgs.expansion_add (UsearchBackend.arguments self))
      (UsearchArgs.expansion_search (UsearchBackend.arguments self)) = Py.Ok host ∧
    UsearchIndex.len E host = 0 ∧
    UsearchIndex.ndim E host = UsearchArgs.dim (UsearchBackend.arguments self).
Proof.
  intros L Hb. apply Invariant.built_configured in Hb.
  destruct (Invariant.configured_host E _ _ Hb) as [host Hh].
  exists host. unfold Contract.init_of in Hh.
  split_and!; [done|by eapply (Contract.init_len L)|by eapply (Contract.init_ndim L)].
Qed.

Lemma arguments_construct_empty_index_witness :
  Contract.Laws ScanIndex.engine ∧
  Contract.built ScanIndex.engine
    (UsearchBackend.insert ScanIndex.engine Samples.adapter_three Samples.one_vector).2 ∧
  ∃ host,
    ScanIndex.init 2 "cos" 16 128 64 = Py.Ok host ∧
    length (ScanIndex.vectors host) = 0 ∧ ScanIndex.ndim host = 2%Z.
Proof.
  assert (Hb : Contract.built ScanIndex.engine
                 (UsearchBackend.insert ScanIndex.engine Samples.adapter_three
                    Samples.one_vector).2).
  { eapply (Contract.built_insert ScanIndex.engine Samples.adapter_three
              Samples.one_vector); [|reflexivity].
    by apply (Contract.built_from_vectors ScanIndex.engine Samples.three_vectors
                "cos" 16 128 64 []). }
  split_and!; [exact ScanIndexFacts.laws|exact Hb|].
  exact (arguments_construct_empty_index ScanIndex.engine _ ScanIndexFacts.laws Hb).
Defined.

(** X7: for an engine that keeps its contract, an adapter returned by
    [from_vectors(V, ...)] and then grown by [insert] calls that returned,
    [n] rows in all, has length the row count of [V] plus [n], keeps the
    dimension of [V] and the argument record it was made with, and the
    [dim] field of that record is the adapter's [dim]. *)
Theorem grown_length_dim_arguments (E : UsearchIndex.Engine)
    (vectors : Np.NDArray (UsearchIndex.scalar E)) (metric : string)
    (connectivity expansion_add expansion_search : Z)
    (kwargs : list (string * Py.object)) (b0 b : UsearchBackend.t E) (n : nat) :
  Contract.Laws E →
  UsearchBackend.from_vectors E vectors metric connectivity expansion_add
    expansion_search kwargs = Py.Ok b0 →
  Growth.grown E b0 n b →
  UsearchBackend.len E b = Np.nrows vectors + n ∧
  UsearchBackend.dim E b = Z.of_nat (Np.ncols vectors) ∧
  UsearchBackend.arguments b = UsearchBackend.arguments b0 ∧
  UsearchArgs.dim (UsearchBackend.arguments b) = UsearchBackend.dim E b.
Proof.
  intros L H0 Hg.
  apply Invariant.from_vectors_Ok in H0 as (e0 & Hi & Ha & Hargs).
  assert (Hlen0 : UsearchBackend.len E b0 = Np.nrows vectors).
  { unfold UsearchBackend.len.
    rewrite (Contract.add_len L _ _ _ Ha), (Contract.init_len L _ _ _ _ _ _ Hi). done. }
  assert (Hdim0 : UsearchBackend.dim E b0 = Z.of_nat (Np.ncols vectors)).
  { unfold UsearchBackend.dim.
    rewrite (Contract.add_ndim L _ _ _ Ha). apply (Contract.init_ndim L _ _ _ _ _ _ Hi). }
  induction Hg as [|n b batch b' Hg IH Hins].
  - split_and!; [lia|done..|]. by rewrite Hargs, Hdim0.
  - destruct IH as (Hlen & Hdim & Hsame & Hfield).
    unfold UsearchBackend.insert in Hins.
    destruct (UsearchIndex.add E (UsearchBackend.index b) batch) as [e'|x] eqn:Hadd;
      [|done].
    injection Hins as <-. unfold UsearchBackend.len, UsearchBackend.dim in *. simpl.
    rewrite (Contract.add_len L _ _ _ Hadd), (Contract.add_ndim L _ _ _ Hadd).
    split_and!; [lia|done..].
Qed.

Lemma grown_length_dim_arguments_witness :
  Contract.Laws ScanIndex.engine ∧
  UsearchBackend.from_vectors ScanIndex.engine Samples.three_vectors "cos" 16 128 64 []
    = Py.Ok Samples.adapter_three ∧
  let b := (UsearchBackend.insert ScanIndex.engine Samples.adapter_three
              Samples.one_vector).2 in
  Growth.grown ScanIndex.engine Samples.adapter_three (0 + 1) b ∧
  UsearchBackend.len ScanIndex.engine b = 3 + (0 + 1) ∧
  UsearchBackend.dim ScanIndex.engine b = 2%Z ∧
  UsearchBackend.arguments b = Samples.cos_args ∧
  UsearchArgs.dim (UsearchBackend.arguments b) = UsearchBackend.dim ScanIndex.engine b.
Proof.
  assert (Hg : Growth.grown ScanIndex.engine Samples.adapter_three (0 + 1)
                 (UsearchBackend.insert ScanIndex.engine Samples.adapter_three
                    Samples.one_vector).2).
  { apply (Growth.grown_insert ScanIndex.engine Samples.adapter_three 0
             Samples.adapter_three Samples.one_vector); [constructor|reflexivity]. }
  split_and!; [exact ScanIndexFacts.laws|reflexivity|].
  intros b. split; [exact Hg|].
  exact (grown_length_dim_arguments ScanIndex.engine Samples.three_vectors "cos"
           16 128 64 [] Samples.adapter_three b (0 + 1) ScanIndexFacts.laws eq_refl Hg).
Defined.

(** X8: the test id tells the parameter sets apart: two pairs of a backend
    and an index type (absent or not empty) with the same id are the same
    pair. *)
Theorem backend_id_distinguishes (p1 p2 : Conftest.Backend * option string) :
  p1.2 ≠ Some "" → p2.2 ≠ Some "" →
  Conftest.backend_id p1 = Conftest.backend_id p2 → p1 = p2.
Proof. apply MoreFacts.backend_id_eq. Qed.

Lemma backend_id_distinguishes_witness :
  (Conftest.FAISS, Some "hnsw").2 ≠ Some "" ∧
  Conftest.backend_id (Conftest.FAISS, Some "hnsw") = "FAISS-hnsw" ∧
  ∀ p : Conftest.Backend * option string,
    p.2 ≠ Some "" → Conftest.backend_id p = "FAISS-hnsw" → p = (Conftest.FAISS, Some "hnsw").
Proof.
  assert (H1 : (Conftest.FAISS, Some "hnsw").2 ≠ Some "") by discriminate.
  split_and!; [exact H1|reflexivity|].
  intros p Hp Hid.
  exact (backend_id_distinguishes p (Conftest.FAISS, Some "hnsw") Hp H1 Hid).
Defined.

(** X9: [BACKEND_IDS] gives one id to each of the fifteen entries of
    [BACKEND_PARAMS], and no id occurs twice. *)
Theorem BACKEND_IDS_distinct :
  length Conftest.BACKEND_IDS = length Conftest.BACKEND_PARAMS ∧
  length Conftest.BACKEND_PARAMS = 15 ∧
  NoDup Conftest.BACKEND_IDS.
Proof.
  split_and!; [apply length_fmap|reflexivity|].
  apply NoDup_fmap_2_strong.
  - intros p1 p2 H1 H2. apply MoreFacts.backend_id_eq.
    + revert p1 H1. apply Forall_forall. by repeat constructor.
    + revert p2 H2. apply Forall_forall. by repeat constructor.
  - apply (bool_decide_unpack _). by vm_compute.
Qed.

(** X10: the [items] fixture holds as many names as the [vectors] fixture
    has rows, and its names are pairwise distinct. *)
Theorem items_distinct :
  length Conftest.items = Conftest.vectors_shape.1 ∧ NoDup Conftest.items.
Proof.
  unfold Conftest.items. split.
  - rewrite length_fmap, length_seq. reflexivity.
  - apply NoDup_fmap_2_strong; [|apply NoDup_seq].
    intros i j _ _. apply MoreFacts.item_name_inj.
Qed.

End Extra.
